(** * BlueShare core: a shallow embedding of [blueshare.c] and [zero.c]

    The session core ([blueshare/core/blueshare.c]) and the Node-Zero
    identity layer ([blueshare/core/zero.c]) are embedded function by
    function.  C integers are [Z] with their ranges and wrap-around written
    out, C [double] is Rocq's primitive binary64 [float], the linked list of
    [device_node_t] threaded through [next] is a [list], and the files
    written by [fopen]/[fwrite] are a finite map from paths to records. *)

From Stdlib Require Import ZArith List Bool Lia.
From Stdlib Require Import PrimFloat SpecFloat FloatOps.
From Stdlib.Strings Require Import Byte.
From stdpp Require Import base option list strings pretty gmap.

Set Warnings "-inexact-float".
Open Scope Z_scope.

(** ** Machine arithmetic of the C sources *)

Module CTypes.

Definition UINT8_MAX : Z := 255.
Definition UINT64_MAX : Z := 2 ^ 64 - 1.

(** A value a [uint8_t] object can hold. *)
Definition is_uint8 (z : Z) : Prop := 0 <= z <= UINT8_MAX.

(** A value a [uint64_t] (or [size_t]) object can hold. *)
Definition is_uint64 (z : Z) : Prop := 0 <= z <= UINT64_MAX.

(** Conversion of an [int] to [uint8_t], as done by an initialiser such
    as [.rssi = -65]: reduction modulo 256. *)
Definition to_uint8 (z : Z) : Z := z mod 256.

(** Addition of two [uint64_t]: it wraps modulo 2^64. *)
Definition add_uint64 (a b : Z) : Z := (a + b) mod 2 ^ 64.

(** Conversion of an integer to [double]: the nearest binary64 value,
    ties to even. *)
Definition Z2double (z : Z) : float :=
  match z with
  | Z0 => PrimFloat.zero
  | Zpos p => SF2Prim (binary_normalize prec emax (Zpos p) 0 false)
  | Zneg p => SF2Prim (binary_normalize prec emax (Zneg p) 0 true)
  end.

(** The integral part of the finite binary64 value [m * 2^e]. *)
Definition integral_part (m : positive) (e : Z) : Z :=
  if e <? 0 then Z.shiftr (Zpos m) (- e) else Z.shiftl (Zpos m) e.

(** The cast [(uint64_t)x] of a [double]: the fractional part is
    discarded (truncation toward zero).  When the integral part is not a
    [uint64_t] value, or [x] is an infinity or a NaN, C leaves the
    conversion undefined: [None]. *)
Definition double_to_uint64 (x : float) : option Z :=
  match Prim2SF x with
  | S754_zero _ => Some 0
  | S754_finite sign m e =>
      let t := integral_part m e in
      if sign then (if t =? 0 then Some 0 else None)
      else if t <=? UINT64_MAX then Some t else None
  | _ => None
  end.

End CTypes.
Import CTypes.

(** ** [blueshare.c]: the session core *)

Module BlueShare.

(** [trinary_state_t], with its two-bit codes. *)
Inductive trinary_state_t : Set :=
| STATE_NO
| STATE_YES
| STATE_MAYBE
| STATE_EPSILON.

Definition trinary_code (t : trinary_state_t) : Z :=
  match t with
  | STATE_NO => 0
  | STATE_YES => 1
  | STATE_MAYBE => 2
  | STATE_EPSILON => 3
  end.

Record nsigii_symbol_t : Set := mk_symbol {
  state : trinary_state_t;
  entropy : float;
  timestamp : Z
}.

Inductive network_topology_t : Set :=
| TOPOLOGY_STAR
| TOPOLOGY_BUS
| TOPOLOGY_MESH
| TOPOLOGY_HYBRID.

Inductive device_role_t : Set :=
| ROLE_HOST
| ROLE_CLIENT
| ROLE_RELAY
| ROLE_OBSERVER.

Inductive payment_state_t : Set :=
| PAYMENT_PENDING
| PAYMENT_AUTHORIZED
| PAYMENT_PROCESSING
| PAYMENT_SETTLED
| PAYMENT_FAILED.

(** [device_node_t].  The [next] link is the enclosing list; [parent],
    [peers] and [peer_count] are read and written by no function of the
    file and are left out. *)
Record device_node_t : Set := mk_device {
  device_id : string;
  device_name : string;
  role : device_role_t;
  rssi : Z;                 (* uint8_t *)
  mtu : Z;                  (* uint16_t *)
  bytes_sent : Z;           (* uint64_t *)
  bytes_received : Z;       (* uint64_t *)
  bandwidth_mbps : float;
  cost_per_mb : float;
  balance_usd : float;
  payment_status : payment_state_t;
  consent_state : nsigii_symbol_t;
  last_seen : Z
}.

(** [blueshare_session_t]. *)
Record blueshare_session_t : Set := mk_session {
  session_id : string;
  topology : network_topology_t;
  devices : list device_node_t;
  device_count : Z;         (* size_t *)
  total_bandwidth_mbps : float;
  fair_share_mbps : float;
  total_cost_usd : float;
  cost_per_device : float;
  session_start : Z;
  session_end : Z;
  is_active : Z;            (* uint8_t *)
  transparency_verified : Z;
  fairness_verified : Z;
  privacy_verified : Z
}.

(** [lightning_payment_t].  [amount_satoshi] is [None] when the cast that
    produces it is undefined in C. *)
Record lightning_payment_t : Set := mk_payment {
  invoice : option string;
  amount_satoshi : option Z;
  expiry : Z;
  status : payment_state_t
}.

(** Field updates of a device, one per assignment in the source. *)
Definition set_consent (d : device_node_t) (c : nsigii_symbol_t) : device_node_t :=
  mk_device (device_id d) (device_name d) (role d) (rssi d) (mtu d)
    (bytes_sent d) (bytes_received d) (bandwidth_mbps d) (cost_per_mb d)
    (balance_usd d) (payment_status d) c (last_seen d).

Definition set_balance_usd (d : device_node_t) (b : float) : device_node_t :=
  mk_device (device_id d) (device_name d) (role d) (rssi d) (mtu d)
    (bytes_sent d) (bytes_received d) (bandwidth_mbps d) (cost_per_mb d)
    b (payment_status d) (consent_state d) (last_seen d).

Definition set_payment_status (d : device_node_t) (p : payment_state_t) : device_node_t :=
  mk_device (device_id d) (device_name d) (role d) (rssi d) (mtu d)
    (bytes_sent d) (bytes_received d) (bandwidth_mbps d) (cost_per_mb d)
    (balance_usd d) p (consent_state d) (last_seen d).

(** *** NSIGII consensus *)

(** [request_device_consent(device, request_type)].  [request_type] only
    reaches [printf]; [now] is the value of [time(NULL)].  The operand
    [device->rssi] is a [uint8_t] promoted to [int], so the comparisons
    are comparisons of integers. *)
Definition request_device_consent (device : device_node_t) (now : Z)
  : device_node_t * trinary_state_t :=
  let st :=
    if -70 <? rssi device then STATE_YES
    else if rssi device <? -90 then STATE_NO
    else STATE_MAYBE in
  let c := mk_symbol st (entropy (consent_state device)) now in
  (set_consent device c, st).

(** The three vote counters of [verify_network_consensus].  They are
    [size_t] objects incremented once per list node; a list of nodes in
    memory is shorter than 2^64, so the increments never wrap. *)
Record vote_counts : Set := mk_counts {
  yes_count : Z;
  no_count : Z;
  maybe_count : Z
}.

(** The [switch] on [current->consent_state.state]. *)
Definition count_vote (c : vote_counts) (current : device_node_t) : vote_counts :=
  match state (consent_state current) with
  | STATE_YES => mk_counts (yes_count c + 1) (no_count c) (maybe_count c)
  | STATE_NO => mk_counts (yes_count c) (no_count c + 1) (maybe_count c)
  | STATE_MAYBE => mk_counts (yes_count c) (no_count c) (maybe_count c + 1)
  | STATE_EPSILON => c
  end.

(** The [while (current != NULL)] loop over the device list. *)
Definition tally_votes (devs : list device_node_t) : vote_counts :=
  fold_left count_vote devs (mk_counts 0 0 0).

(** The verdict line printed by [verify_network_consensus]. *)
Inductive consensus_line : Set :=
| CONSENSUS_REJECTED
| CONSENSUS_VERIFIED
| CONSENSUS_PENDING.

(** [verify_network_consensus(session)]: the verdict it prints and the
    [uint8_t] it returns.  [session->device_count / 2] is a division of
    unsigned integers. *)
Definition verify_network_consensus (session : blueshare_session_t)
  : consensus_line * Z :=
  let c := tally_votes (devices session) in
  if 0 <? no_count c then (CONSENSUS_REJECTED, 0)
  else if device_count session / 2 <=? yes_count c then (CONSENSUS_VERIFIED, 1)
  else (CONSENSUS_PENDING, 0).

(** *** Network topology management *)

(** The host-counting loop of [determine_topology]. *)
Definition count_hosts (devs : list device_node_t) : Z :=
  fold_left
    (fun host_count current =>
       match role current with
       | ROLE_HOST => host_count + 1
       | _ => host_count
       end)
    devs 0.

(** The line printed by [determine_topology]. *)
Inductive topology_line : Set :=
| TOPOLOGY_ERROR_NO_HOSTS
| TOPOLOGY_SELECTED (t : network_topology_t).

(** [determine_topology(device_count, devices)]: the line it prints and the
    topology it returns. *)
Definition determine_topology (device_count : Z) (devs : list device_node_t)
  : topology_line * network_topology_t :=
  let host_count := count_hosts devs in
  if host_count =? 0 then (TOPOLOGY_ERROR_NO_HOSTS, TOPOLOGY_STAR)
  else if (device_count <=? 3) && (host_count =? 1)
       then (TOPOLOGY_SELECTED TOPOLOGY_STAR, TOPOLOGY_STAR)
  else if (device_count <=? 5) && (host_count <=? 2)
       then (TOPOLOGY_SELECTED TOPOLOGY_BUS, TOPOLOGY_BUS)
  else if 2 <=? host_count
       then (TOPOLOGY_SELECTED TOPOLOGY_MESH, TOPOLOGY_MESH)
  else (TOPOLOGY_SELECTED TOPOLOGY_HYBRID, TOPOLOGY_HYBRID).

(** The bandwidth-summing loop of [calculate_fair_bandwidth], started from
    [total_available]. *)
Definition sum_host_bandwidth (devs : list device_node_t) (total_available : float)
  : float :=
  fold_left
    (fun total current =>
       match role current with
       | ROLE_HOST => (total + bandwidth_mbps current)%float
       | _ => total
       end)
    devs total_available.

(** [calculate_fair_bandwidth(session)]. *)
Definition calculate_fair_bandwidth (session : blueshare_session_t)
  : blueshare_session_t :=
  let total_available := sum_host_bandwidth (devices session) 0%float in
  mk_session (session_id session) (topology session) (devices session)
    (device_count session)
    total_available
    ((total_available * 2.0) / Z2double (device_count session))%float
    (total_cost_usd session) (cost_per_device session)
    (session_start session) (session_end session) (is_active session)
    (transparency_verified session) (fairness_verified session)
    (privacy_verified session).

(** *** Cost calculation and payment processing *)

Definition force_newtons : float := 1.25%float.
Definition distance_meters : float := 15.0%float.
Definition cosine_theta : float := 0.866%float.
Definition work_per_mb : float := (force_newtons * distance_meters * cosine_theta)%float.
Definition usd_per_joule : float := 0.00001%float.

(** [mb_used] of one device: the [uint64_t] sum of the two counters,
    converted to [double] and divided by [1024.0 * 1024.0]. *)
Definition mb_used (current : device_node_t) : float :=
  (Z2double (add_uint64 (bytes_sent current) (bytes_received current))
   / (1024.0 * 1024.0))%float.

Definition device_cost (current : device_node_t) : float :=
  (mb_used current * work_per_mb * usd_per_joule)%float.

(** The loop of [calculate_cost_sharing]: it walks the list, stores each
    device's cost in its [balance_usd] and adds it to the running
    [total_cost_usd]. *)
Fixpoint cost_loop (devs : list device_node_t) (total_cost : float)
  : list device_node_t * float :=
  match devs with
  | [] => ([], total_cost)
  | current :: rest =>
      let c := device_cost current in
      let r := cost_loop rest (total_cost + c)%float in
      (set_balance_usd current c :: fst r, snd r)
  end.

(** [calculate_cost_sharing(session)]. *)
Definition calculate_cost_sharing (session : blueshare_session_t)
  : blueshare_session_t :=
  let r := cost_loop (devices session) 0%float in
  mk_session (session_id session) (topology session) (fst r)
    (device_count session)
    (total_bandwidth_mbps session) (fair_share_mbps session)
    (snd r)
    (snd r / Z2double (device_count session))%float
    (session_start session) (session_end session) (is_active session)
    1 1 (privacy_verified session).

Definition btc_per_usd : float := (1.0 / 40000.0)%float.
Definition satoshi_per_btc : Z := 100000000.

(** [process_lightning_payment(device, amount_usd)]: the updated device,
    the local [payment] it builds, and the [uint8_t] it returns.  [now] is
    the value of [time(NULL)].  The invoice text is
    ["lnbc%luu1p..."] filled with the satoshi amount. *)
Definition process_lightning_payment
  (device : device_node_t) (amount_usd : float) (now : Z)
  : device_node_t * lightning_payment_t * Z :=
  let sat := double_to_uint64 (amount_usd * btc_per_usd * Z2double satoshi_per_btc)%float in
  let payment :=
    mk_payment
      ((fun n => "lnbc" +:+ pretty (Z.to_N n) +:+ "u1p...") <$> sat)
      sat
      (now + 600)
      PAYMENT_AUTHORIZED in
  (set_payment_status device PAYMENT_SETTLED, payment, 1).

(** *** Constitutional compliance *)

(** [verify_constitutional_compliance(session)]: the updated session and
    the [uint8_t passed] it returns. *)
Definition verify_constitutional_compliance (session : blueshare_session_t)
  : blueshare_session_t * Z :=
  let passed := 1 in
  let passed := if transparency_verified session =? 0 then 0 else passed in
  let passed := if fairness_verified session =? 0 then 0 else passed in
  let session' :=
    mk_session (session_id session) (topology session) (devices session)
      (device_count session)
      (total_bandwidth_mbps session) (fair_share_mbps session)
      (total_cost_usd session) (cost_per_device session)
      (session_start session) (session_end session) (is_active session)
      (transparency_verified session) (fairness_verified session)
      1 in
  (session', passed).

End BlueShare.
Import BlueShare.

(** ** Auxiliary notions used to state the properties *)

#[global] Instance trinary_state_eq_dec : EqDecision trinary_state_t.
Proof. solve_decision. Defined.

#[global] Instance device_role_eq_dec : EqDecision device_role_t.
Proof. solve_decision. Defined.

(** The devices of [devs] whose consent state is [st]. *)
Definition voters (st : trinary_state_t) (devs : list device_node_t) : list device_node_t :=
  filter (fun d => state (consent_state d) = st) devs.

(** The devices of [devs] with role Host. *)
Definition hosts (devs : list device_node_t) : list device_node_t :=
  filter (fun d => role d = ROLE_HOST) devs.

(** What the loop of [calculate_cost_sharing] does to one device. *)
Definition charge (d : device_node_t) : device_node_t :=
  set_balance_usd d (device_cost d).

(** How the payment states of the devices relate before and after, position
    by position: each is kept, or it became SETTLED. *)
Definition kept_or_settled (before after : list device_node_t) : Prop :=
  forall i d', after !! i = Some d' ->
    exists d, before !! i = Some d /\
      (payment_status d' = payment_status d \/ payment_status d' = PAYMENT_SETTLED).

(** What no function of the core writes in a device: everything but the
    balance, the payment state and the consent state. *)
Definition same_device_data (d d' : device_node_t) : Prop :=
  device_id d' = device_id d /\ device_name d' = device_name d /\
  role d' = role d /\ rssi d' = rssi d /\ mtu d' = mtu d /\
  bytes_sent d' = bytes_sent d /\ bytes_received d' = bytes_received d /\
  bandwidth_mbps d' = bandwidth_mbps d /\ cost_per_mb d' = cost_per_mb d /\
  last_seen d' = last_seen d.

(** What no function of the core writes in a session, and the devices
    position by position. *)
Definition same_session_data (s s' : blueshare_session_t) : Prop :=
  session_id s' = session_id s /\ device_count s' = device_count s /\
  session_start s' = session_start s /\ session_end s' = session_end s /\
  is_active s' = is_active s /\
  Forall2 same_device_data (devices s) (devices s').

(** ** [zero.c]: the Node-Zero phantom encoder *)

Module Zero.

Definition SHA256_DIGEST_LENGTH : nat := 32.

(** The byte arrays of the structures below ([uint8_t x[32]]) are lists of
    bytes; a well-formed structure holds exactly 32 bytes in each. *)
Record zero_id_t : Set := mk_zero_id {
  version : Z;               (* uint8_t *)
  hash : list byte;
  salt : list byte;
  created : Z
}.

Record zero_key_t : Set := mk_zero_key {
  key_hash : list byte;
  key_timestamp : Z;
  expiration : Z
}.

Record zero_proof_t : Set := mk_zero_proof {
  proof : list byte;
  challenge : list byte;
  timestamp : Z
}.

Record zero_context_t : Set := mk_zero_context {
  algorithm : string;
  master_key : list byte;
  context_salt : list byte
}.

Definition wf_zero_id (zid : zero_id_t) : Prop :=
  length (hash zid) = 32%nat /\ length (salt zid) = 32%nat.

Definition wf_zero_proof (p : zero_proof_t) : Prop :=
  length (proof p) = 32%nat /\ length (challenge p) = 32%nat.

(** [memcpy(dest, src, n)] on arrays: the first [n] bytes of [dest] are
    replaced by the first [n] bytes of [src]. *)
Definition memcpy (dest src : list byte) (n : nat) : list byte :=
  take n src ++ drop n dest.

(** A zero-initialised array of [n] bytes ([= {0}]). *)
Definition zeroed (n : nat) : list byte := replicate n x00.

Section PhantomEncoder.

(** OpenSSL's [SHA256], from the message to its digest. *)
Variable SHA256 : list byte -> list byte.

(** [create_proof(ctx, zid, challenge, challenge_len)]; [now] is the value
    of [time(NULL)].  Copying [challenge_len] bytes reads past [challenge]
    when it is shorter, and writes past the 32-byte [proof.challenge] when
    [challenge_len] exceeds 32; C leaves both undefined: [None]. *)
Definition create_proof (ctx : zero_context_t) (zid : zero_id_t)
  (challenge : list byte) (challenge_len : nat) (now : Z) : option zero_proof_t :=
  if decide (challenge_len <= 32 /\ challenge_len <= length challenge)%nat then
    let proof_challenge := memcpy (zeroed 32) challenge challenge_len in
    let combined := take 32 (hash zid) ++ take challenge_len challenge in
    Some (mk_zero_proof (SHA256 combined) proof_challenge now)
  else None.

(** One turn of the comparison loop of [verify_proof]:
    [matches &= (proof->proof[i] == expected_proof[i])]. *)
Definition digest_step (given expected : list byte) (matches : Z) (i : nat) : Z :=
  Z.land matches (if Byte.eqb (nth i given x00) (nth i expected x00) then 1 else 0).

(** The loop, started with [matches = 1], over the indices [idx]. *)
Definition compare_digests (given expected : list byte) (idx : list nat) : Z :=
  fold_left (digest_step given expected) idx 1.

(** [verify_proof(ctx, proof, zid)]. *)
Definition verify_proof (ctx : zero_context_t) (p : zero_proof_t) (zid : zero_id_t) : Z :=
  let combined := take 32 (hash zid) ++ take 32 (challenge p) in
  let expected_proof := SHA256 combined in
  compare_digests (proof p) expected_proof (seq 0 SHA256_DIGEST_LENGTH).

End PhantomEncoder.

(** *** The identity store *)






End Zero.

(** ** [zero.c]: the functions that draw entropy and read the clock *)

Module Phantom.

Import Zero.

(** What the process meets outside itself: the bytes [RAND_bytes] will
    deliver, in order (it fails once fewer are left than it is asked for),
    and the values the successive calls of [time(NULL)] return. *)
Record world : Type := mk_world {
  entropy : list byte;
  time_at : nat -> Z;
  time_calls : nat
}.

(** How a call ends: it returns, the process leaves through [exit], or the
    call does something C leaves undefined. *)
Inductive outcome (A : Type) : Type :=
| Returned (a : A) (w : world)
| Exited (code : Z)
| Undefined.

Arguments Returned {A} a w.
Arguments Exited {A} code.
Arguments Undefined {A}.

Definition run (A : Type) : Type := world -> outcome A.

#[global] Instance run_ret : MRet run := fun A a w => Returned a w.

#[global] Instance run_bind : MBind run := fun A B f m w =>
  match m w with
  | Returned a w' => f a w'
  | Exited code => Exited code
  | Undefined => Undefined
  end.

Definition undefined {A : Type} : run A := fun _ => Undefined.

(** [time(NULL)]. *)
Definition time_now : run Z := fun w =>
  Returned (time_at w (time_calls w))
    (mk_world (entropy w) (time_at w) (S (time_calls w))).

(** [generate_secure_salt(salt, length)]: the bytes written to [salt], or
    [exit(1)] when [RAND_bytes] fails. *)
Definition generate_secure_salt (length : nat) : run (list byte) := fun w =>
  if decide (length <= List.length (entropy w))%nat then
    Returned (take length (entropy w))
      (mk_world (drop length (entropy w)) (time_at w) (time_calls w))
  else Exited 1.

(** The characters of a C string: the bytes before the first NUL. *)
Fixpoint c_string (s : list byte) : list byte :=
  match s with
  | [] => []
  | b :: rest => if Byte.eqb b x00 then [] else b :: c_string rest
  end.

Definition strlen (s : list byte) : nat := length (c_string s).

(** [snprintf(buf, size, ...)] keeps the first [size - 1] characters of the
    formatted text. *)
Definition snprintf (size : nat) (text : list byte) : list byte :=
  take (size - 1) text.

(** The text of [%ld]. *)
Definition decimal (z : Z) : list byte := String.list_byte_of_string (pretty z).

Definition literal (s : string) : list byte := String.list_byte_of_string s.

(** [blueshare_device_t]: the two character arrays (as C strings) and the
    four identity structures. *)
Record blueshare_device_t : Set := mk_blueshare_device {
  device_id : list byte;      (* char[64] *)
  device_name : list byte;    (* char[128] *)
  zid : zero_id_t;
  key : zero_key_t;
  auth_id : zero_id_t;
  network_id : zero_id_t
}.

Section Encoder.

(** OpenSSL's [SHA256], and [HMAC] with [EVP_sha256()] applied to a key and
    a message. *)
Variable SHA256 : list byte -> list byte.
Variable HMAC : list byte -> list byte -> list byte.

(** [create_zero_id(ctx, device_id, id_len)].  Copying [id_len] bytes from
    a shorter [device_id] is undefined. *)
Definition create_zero_id (ctx : zero_context_t) (device_id : list byte)
  (id_len : nat) : run zero_id_t :=
  created ← time_now;
  salt ← generate_secure_salt 32;
  if decide (id_len <= length device_id)%nat then
    mret (mk_zero_id 1 (SHA256 (take id_len device_id ++ salt)) salt created)
  else undefined.

(** [create_zero_key(ctx, zid)]. *)
Definition create_zero_key (ctx : zero_context_t) (zid : zero_id_t) : run zero_key_t :=
  timestamp ← time_now;
  mret (mk_zero_key (HMAC (take 32 (master_key ctx)) (take 32 (hash zid)))
          timestamp (timestamp + 86400 * 30)).

(** [derive_zero_id(ctx, base_id, purpose)]. *)
Definition derive_zero_id (ctx : zero_context_t) (base_id : zero_id_t)
  (purpose : list byte) : run zero_id_t :=
  created ← time_now;
  let derived_salt := memcpy (zeroed 32) (salt base_id) 32 in
  let combined := take 32 (hash base_id) ++ c_string purpose in
  mret (mk_zero_id (version base_id)
          (HMAC (take 32 (context_salt ctx)) combined) derived_salt created).

(** [create_challenge(challenge, length)]. *)
Definition create_challenge (length : nat) : run (list byte) :=
  generate_secure_salt length.

(** [create_proof] as a call: it reads the clock itself. *)
Definition create_proof_call (ctx : zero_context_t) (zid : zero_id_t)
  (chal : list byte) (challenge_len : nat) : run zero_proof_t :=
  now ← time_now;
  match create_proof SHA256 ctx zid chal challenge_len now with
  | Some p => mret p
  | None => undefined
  end.

(** [blueshare_init_device(ctx, device_name)].  [strcpy] into the 128-byte
    [device.device_name] is undefined for a name of 128 characters or
    more. *)
Definition blueshare_init_device (ctx : zero_context_t) (name : list byte)
  : run blueshare_device_t :=
  if decide (128 <= strlen name)%nat then undefined
  else
    now ← time_now;
    let id := snprintf 64 (literal "blueshare-" ++ decimal now ++ literal "-"
                           ++ c_string name) in
    zid ← create_zero_id ctx id (strlen id);
    key ← create_zero_key ctx zid;
    auth ← derive_zero_id ctx zid (literal "authentication");
    net ← derive_zero_id ctx zid (literal "network-joining");
    mret (mk_blueshare_device id (c_string name) zid key auth net).

(** [blueshare_authenticate(ctx, device)]. *)
Definition blueshare_authenticate (ctx : zero_context_t) (device : blueshare_device_t)
  : run Z :=
  chal ← create_challenge 32;
  p ← create_proof_call ctx (auth_id device) chal 32;
  mret (verify_proof SHA256 ctx p (auth_id device)).

(** [blueshare_join_network(ctx, device, network_name)]. *)
Definition blueshare_join_network (ctx : zero_context_t) (device : blueshare_device_t)
  (network_name : list byte) : run Z :=
  let purpose := snprintf 128 (literal "network-" ++ c_string network_name) in
  network_specific_id ← derive_zero_id ctx (network_id device) purpose;
  chal ← create_challenge 32;
  p ← create_proof_call ctx network_specific_id chal 32;
  mret (verify_proof SHA256 ctx p network_specific_id).

End Encoder.

(** *** Reading the identity store *)





End Phantom.

(** ** The operations of the core as steps on a session *)

Module Steps.

(** One call of a function of [blueshare.c] on the session or on one of
    its devices, with what it writes.  [verify_network_consensus] writes
    nothing and has no step; the result of [determine_topology] is stored
    in the session, as [main] does. *)
Inductive session_step : blueshare_session_t -> blueshare_session_t -> Prop :=
| step_consent s i d now :
    devices s !! i = Some d ->
    session_step s
      (mk_session (session_id s) (topology s)
         (<[i := fst (request_device_consent d now)]> (devices s))
         (device_count s) (total_bandwidth_mbps s) (fair_share_mbps s)
         (total_cost_usd s) (cost_per_device s) (session_start s)
         (session_end s) (is_active s) (transparency_verified s)
         (fairness_verified s) (privacy_verified s))
| step_topology s :
    session_step s
      (mk_session (session_id s)
         (snd (determine_topology (device_count s) (devices s)))
         (devices s)
         (device_count s) (total_bandwidth_mbps s) (fair_share_mbps s)
         (total_cost_usd s) (cost_per_device s) (session_start s)
         (session_end s) (is_active s) (transparency_verified s)
         (fairness_verified s) (privacy_verified s))
| step_bandwidth s :
    session_step s (calculate_fair_bandwidth s)
| step_cost s :
    session_step s (calculate_cost_sharing s)
| step_payment s i d amount_usd now :
    devices s !! i = Some d ->
    session_step s
      (mk_session (session_id s) (topology s)
         (<[i := fst (fst (process_lightning_payment d amount_usd now))]> (devices s))
         (device_count s) (total_bandwidth_mbps s) (fair_share_mbps s)
         (total_cost_usd s) (cost_per_device s) (session_start s)
         (session_end s) (is_active s) (transparency_verified s)
         (fairness_verified s) (privacy_verified s))
| step_compliance s :
    session_step s (fst (verify_constitutional_compliance s)).

(** Any finite sequence of such calls. *)
Inductive session_run : blueshare_session_t -> blueshare_session_t -> Prop :=
| run_done s : session_run s s
| run_step s1 s2 s3 : session_step s1 s2 -> session_run s2 s3 -> session_run s1 s3.

End Steps.

(** ** The demo session of [main] in [blueshare.c], and other sessions *)

Module Demo.

Definition fresh_symbol : nsigii_symbol_t := mk_symbol STATE_NO 0%float 0.

Definition device1 : device_node_t :=
  mk_device "dev-001-host" "Alice's Phone (Host)" ROLE_HOST (to_uint8 (-65)) 0
    5242880 2097152 10.0%float 0.0001%float 0%float PAYMENT_PENDING fresh_symbol 0.

Definition device2 : device_node_t :=
  mk_device "dev-002-client" "Bob's Laptop" ROLE_CLIENT (to_uint8 (-72)) 0
    1048576 10485760 0%float 0%float 0%float PAYMENT_PENDING fresh_symbol 0.

Definition device3 : device_node_t :=
  mk_device "dev-003-client" "Carol's Tablet" ROLE_CLIENT (to_uint8 (-68)) 0
    524288 3145728 0%float 0%float 0%float PAYMENT_PENDING fresh_symbol 0.

Definition device4 : device_node_t :=
  mk_device "dev-004-relay" "Dave's Hotspot" ROLE_RELAY (to_uint8 (-95)) 0
    2097152 1048576 0%float 0%float 0%float PAYMENT_PENDING fresh_symbol 0.

(** A session over [devs] with [n] in [device_count] and everything else
    zero, as the designated initialiser of [main] leaves it. *)
Definition session_of (n : Z) (devs : list device_node_t) : blueshare_session_t :=
  mk_session "blueshare-demo-001" TOPOLOGY_STAR devs n
    0%float 0%float 0%float 0%float 0 0 1 0 0 0.

Definition session : blueshare_session_t :=
  session_of 4 [device1; device2; device3; device4].

(** A device whose consent state holds [st]. *)
Definition voter (d : device_node_t) (st : trinary_state_t) : device_node_t :=
  set_consent d (mk_symbol st 0%float 0).

(** Three devices, one of which said YES while two are undecided. *)
Definition one_yes_of_three : blueshare_session_t :=
  session_of 3 [voter device1 STATE_YES; voter device2 STATE_MAYBE;
                voter device3 STATE_MAYBE].

(** Two clients and a relay: nobody shares a connection. *)
Definition no_host_devices : list device_node_t := [device2; device3; device4].

(** A host sharing [bw] Mbps. *)
Definition host (bw : float) : device_node_t :=
  mk_device "dev-001-host" "Alice's Phone (Host)" ROLE_HOST (to_uint8 (-65)) 0
    5242880 2097152 bw 0.0001%float 0%float PAYMENT_PENDING fresh_symbol 0.

(** The [i]-th client of a larger session. *)
Definition client (i : nat) : device_node_t :=
  mk_device ("dev-client-" +:+ pretty i) "Client" ROLE_CLIENT (to_uint8 (-60)) 0
    1048576 1048576 0%float 0%float 0%float PAYMENT_PENDING fresh_symbol 0.

(** A client whose two byte counters add up past [UINT64_MAX]. *)
Definition heavy_client : device_node_t :=
  mk_device "dev-005-client" "Erin's Router" ROLE_CLIENT (to_uint8 (-60)) 0
    UINT64_MAX 2 0%float 0%float 0%float PAYMENT_PENDING fresh_symbol 0.

(** Eleven devices: one host sharing 25 Mbps and ten clients. *)
Definition eleven_devices : blueshare_session_t :=
  session_of 11 (host 25.0%float :: map client (seq 2 10)).

End Demo.

(** ** Sample identities *)

Module ZeroDemo.

Definition ctx : Zero.zero_context_t :=
  Zero.mk_zero_context "SHA256-HMAC" (replicate 32 "k"%byte) (replicate 32 "s"%byte).

Definition alice_zid : Zero.zero_id_t :=
  Zero.mk_zero_id 1 (replicate 32 "a"%byte) (replicate 32 "n"%byte) 1700000000.


Definition challenge : list byte := replicate 32 "c"%byte.

(** A stand-in for the digest function: the first 32 bytes of the message
    read backwards, padded with zeros. *)
Definition toy_digest (msg : list byte) : list byte :=
  take 32 (reverse msg ++ replicate 32 x00).


End ZeroDemo.

(** ** The invoice amount in the specification's words *)

Module Spec.

(** The three results of the consensus aggregation. *)
Inductive consensus_result : Set :=
| REJECTED
| ACCEPTED
| PENDING.

(** Any NO gives REJECTED; otherwise YES votes numbering at least
    [device_count / 2] rounded up give ACCEPTED; otherwise PENDING. *)
Definition consensus (devs : list device_node_t) (device_count : Z) : consensus_result :=
  let yes := Z.of_nat (length (voters STATE_YES devs)) in
  let no := Z.of_nat (length (voters STATE_NO devs)) in
  if 0 <? no then REJECTED
  else if (device_count + 1) / 2 <=? yes then ACCEPTED
  else PENDING.

(** The result a verdict line of [verify_network_consensus] stands for. *)
Definition result_of_line (l : consensus_line) : consensus_result :=
  match l with
  | CONSENSUS_REJECTED => REJECTED
  | CONSENSUS_VERIFIED => ACCEPTED
  | CONSENSUS_PENDING => PENDING
  end.

(** The integer nearest to the finite binary64 value [m * 2^e], a tie
    going to the even neighbour (banker's rounding). *)
Definition round_half_even (m : positive) (e : Z) : Z :=
  if e <? 0 then
    let q := Z.pos m / 2 ^ (- e) in
    let r := Z.pos m mod 2 ^ (- e) in
    let half := 2 ^ (- e - 1) in
    if r <? half then q
    else if half <? r then q + 1
    else if Z.even q then q else q + 1
  else Z.pos m * 2 ^ e.

(** [satoshi = amount_usd / rate * 10^8] with banker's rounding. *)
Definition invoice_satoshi (rate_usd_per_btc amount_usd : float) : option Z :=
  match Prim2SF (amount_usd / rate_usd_per_btc * Z2double (10 ^ 8))%float with
  | S754_zero _ => Some 0
  | S754_finite false m e => Some (round_half_even m e)
  | _ => None
  end.

Definition default_rate_usd_per_btc : float := 40000.0%float.

(** [mb_used = (bytes_sent + bytes_received) / (1024 * 1024)], the sum
    being the sum of the two numbers. *)
Definition mb_used (d : device_node_t) : float :=
  (Z2double (bytes_sent d + bytes_received d) / (1024.0 * 1024.0))%float.

(** [balance_usd = mb_used * F_NEWTONS * D_METERS * COS_THETA *
    USD_PER_JOULE], multiplied in the order written. *)
Definition balance_usd (d : device_node_t) : float :=
  (mb_used d * 1.25 * 15.0 * 0.866 * 0.00001)%float.

End Spec.

(** ** Properties of the session core *)

Section Consensus.

Lemma fold_count_vote devs c :
  let r := fold_left count_vote devs c in
  yes_count r = yes_count c + Z.of_nat (length (voters STATE_YES devs)) /\
  no_count r = no_count c + Z.of_nat (length (voters STATE_NO devs)) /\
  maybe_count r = maybe_count c + Z.of_nat (length (voters STATE_MAYBE devs)).
Proof.
  revert c. induction devs as [|d devs IH]; intros c; cbn zeta.
  - cbn. lia.
  - cbn [fold_left]. specialize (IH (count_vote c d)). cbn zeta in IH.
    destruct IH as (Hy & Hn & Hm). rewrite Hy, Hn, Hm.
    unfold voters, count_vote. rewrite !filter_cons.
    destruct (state (consent_state d)); repeat case_decide;
      try congruence; cbn [length yes_count no_count maybe_count]; lia.
Qed.

(** The loop counts the YES, NO and MAYBE devices; EPSILON devices are
    counted nowhere. *)
Lemma tally_votes_counts devs :
  yes_count (tally_votes devs) = Z.of_nat (length (voters STATE_YES devs)) /\
  no_count (tally_votes devs) = Z.of_nat (length (voters STATE_NO devs)) /\
  maybe_count (tally_votes devs) = Z.of_nat (length (voters STATE_MAYBE devs)).
Proof.
  unfold tally_votes. pose proof (fold_count_vote devs (mk_counts 0 0 0)) as H.
  cbn in H. exact H.
Qed.

(** What [verify_network_consensus] decides, in terms of the votes: a NO
    rejects; without a NO the session is verified exactly when the YES
    votes reach [device_count / 2] rounded down. *)
Lemma verify_network_consensus_cases session :
  let yes := Z.of_nat (length (voters STATE_YES (devices session))) in
  let no := Z.of_nat (length (voters STATE_NO (devices session))) in
  (0 < no -> verify_network_consensus session = (CONSENSUS_REJECTED, 0)) /\
  (no = 0 -> device_count session / 2 <= yes ->
   verify_network_consensus session = (CONSENSUS_VERIFIED, 1)) /\
  (no = 0 -> yes < device_count session / 2 ->
   verify_network_consensus session = (CONSENSUS_PENDING, 0)).
Proof.
  cbn zeta. unfold verify_network_consensus.
  destruct (tally_votes_counts (devices session)) as (Hy & Hn & _).
  rewrite Hy, Hn. repeat split; intros.
  - destruct (Z.ltb_spec 0 (Z.of_nat (length (voters STATE_NO (devices session)))));
      [reflexivity | lia].
  - destruct (Z.ltb_spec 0 (Z.of_nat (length (voters STATE_NO (devices session)))));
      [lia |].
    destruct (Z.leb_spec (device_count session / 2)
                (Z.of_nat (length (voters STATE_YES (devices session)))));
      [reflexivity | lia].
  - destruct (Z.ltb_spec 0 (Z.of_nat (length (voters STATE_NO (devices session)))));
      [lia |].
    destruct (Z.leb_spec (device_count session / 2)
                (Z.of_nat (length (voters STATE_YES (devices session)))));
      [lia | reflexivity].
Qed.

(** Where the code and the specification's aggregation agree: always,
    except when nobody voted NO, [device_count] is odd and the YES votes
    number exactly [device_count / 2] rounded down. *)
Lemma verify_network_consensus_meets_spec session :
  Z.even (device_count session) = true \/
  Z.of_nat (length (voters STATE_YES (devices session))) <> device_count session / 2 \/
  0 < Z.of_nat (length (voters STATE_NO (devices session))) ->
  Spec.result_of_line (fst (verify_network_consensus session))
  = Spec.consensus (devices session) (device_count session).
Proof.
  intros Hcase.
  destruct (verify_network_consensus_cases session) as (Hrej & Hver & Hpen).
  unfold Spec.consensus.
  set (yes := Z.of_nat (length (voters STATE_YES (devices session)))) in *.
  set (no := Z.of_nat (length (voters STATE_NO (devices session)))) in *.
  destruct (Z.ltb_spec 0 no) as [Hno|Hno].
  - rewrite (Hrej Hno). reflexivity.
  - assert (Hno0 : no = 0) by (subst no; lia).
    assert (Hhalf : device_count session / 2 <= yes <->
                    (device_count session + 1) / 2 <= yes).
    { pose proof (Z.div_mod (device_count session) 2 ltac:(lia)) as Hq.
      pose proof (Z.mod_pos_bound (device_count session) 2 ltac:(lia)) as Hr.
      pose proof (Z.div_mod (device_count session + 1) 2 ltac:(lia)) as Hq'.
      pose proof (Z.mod_pos_bound (device_count session + 1) 2 ltac:(lia)) as Hr'.
      destruct Hcase as [Heven | [Hne | Hpos]]; [| lia | lia].
      apply Z.even_spec in Heven as [k Hk]. lia. }
    destruct (Z.leb_spec ((device_count session + 1) / 2) yes) as [Hy|Hy].
    + rewrite (Hver Hno0 (proj2 Hhalf Hy)). reflexivity.
    + rewrite (Hpen Hno0); [reflexivity |].
      destruct (Z.le_gt_cases (device_count session / 2) yes) as [Hle|Hgt];
        [apply Hhalf in Hle; lia | exact Hgt].
Qed.

(** C1.  In a session of three devices where nobody voted NO and a single
    device voted YES, one vote is fewer than the two that half of three,
    rounded up, asks for, and the aggregation of the specification gives
    PENDING; [verify_network_consensus] nevertheless prints the VERIFIED
    verdict and returns 1, because [device_count / 2] is 1. *)
Theorem verify_network_consensus_one_yes_of_three :
  device_count Demo.one_yes_of_three = 3 /\
  length (voters STATE_NO (devices Demo.one_yes_of_three)) = 0%nat /\
  length (voters STATE_YES (devices Demo.one_yes_of_three)) = 1%nat /\
  Spec.consensus (devices Demo.one_yes_of_three) 3 = Spec.PENDING /\
  verify_network_consensus Demo.one_yes_of_three = (CONSENSUS_VERIFIED, 1).
Proof. repeat split; vm_compute; reflexivity. Qed.

(** A lone device that never answered (EPSILON) is verified as well. *)
Lemma verify_network_consensus_lone_epsilon :
  verify_network_consensus
    (Demo.session_of 1 [Demo.voter Demo.device1 STATE_EPSILON])
  = (CONSENSUS_VERIFIED, 1).
Proof. vm_compute. reflexivity. Qed.

End Consensus.

Section Consent.

(** C9.  Whatever [uint8_t] value the [rssi] field holds, its promoted
    value is non-negative, so [rssi > -70] holds:
    [request_device_consent] stores [STATE_YES] in the device's consent
    state and returns [STATE_YES]; the [NO], [MAYBE] and [EPSILON]
    outcomes are never produced. *)
Theorem request_device_consent_always_yes (device : device_node_t) (now : Z) :
  is_uint8 (rssi device) ->
  let r := request_device_consent device now in
  state (consent_state (fst r)) = STATE_YES /\
  snd r = STATE_YES /\
  snd r <> STATE_NO /\ snd r <> STATE_MAYBE /\ snd r <> STATE_EPSILON.
Proof.
  intros [Hlo _]. unfold request_device_consent. cbn zeta.
  assert (Hyes : (-70 <? rssi device) = true) by (apply Z.ltb_lt; lia).
  rewrite Hyes. cbn. repeat split; discriminate.
Qed.

(** Dave's hotspot, initialised with [.rssi = -95], stores 161 and consents
    with [STATE_YES]. *)
Lemma request_device_consent_always_yes_witness :
  is_uint8 (rssi Demo.device4) /\
  snd (request_device_consent Demo.device4 0) = STATE_YES.
Proof.
  assert (H : is_uint8 (rssi Demo.device4)) by (vm_compute; split; discriminate).
  split; [exact H |].
  exact (proj1 (proj2 (request_device_consent_always_yes Demo.device4 0 H))).
Defined.

End Consent.

Section Topology.

Lemma fold_count_hosts devs n :
  fold_left
    (fun host_count current =>
       match role current with
       | ROLE_HOST => host_count + 1
       | _ => host_count
       end) devs n
  = n + Z.of_nat (length (hosts devs)).
Proof.
  revert n. induction devs as [|d devs IH]; intros n.
  - cbn. lia.
  - cbn [fold_left]. rewrite IH. unfold hosts. rewrite filter_cons.
    destruct (role d); case_decide; try congruence; cbn [length]; lia.
Qed.

(** [host_count] is the number of devices with role Host. *)
Lemma count_hosts_length devs : count_hosts devs = Z.of_nat (length (hosts devs)).
Proof. unfold count_hosts. rewrite fold_count_hosts. lia. Qed.

Lemma no_host_count devs :
  Forall (fun d => role d <> ROLE_HOST) devs -> count_hosts devs = 0.
Proof.
  intros H. rewrite count_hosts_length. unfold hosts.
  induction H as [|d devs Hd _ IH]; [reflexivity |].
  rewrite filter_cons. case_decide; [contradiction | exact IH].
Qed.

(** C2, as the code has it.  When no device has role Host,
    [determine_topology] prints its no-hosts error line and returns
    [TOPOLOGY_STAR] as a fallback, whatever [device_count] is; its return
    type carries no error. *)
Theorem determine_topology_no_hosts_fallback (device_count : Z) (devs : list device_node_t) :
  Forall (fun d => role d <> ROLE_HOST) devs ->
  determine_topology device_count devs = (TOPOLOGY_ERROR_NO_HOSTS, TOPOLOGY_STAR).
Proof.
  intros H. unfold determine_topology. rewrite (no_host_count devs H). reflexivity.
Qed.

Lemma determine_topology_no_hosts_fallback_witness :
  Forall (fun d => role d <> ROLE_HOST) Demo.no_host_devices /\
  determine_topology 3 Demo.no_host_devices = (TOPOLOGY_ERROR_NO_HOSTS, TOPOLOGY_STAR).
Proof.
  assert (H : Forall (fun d => role d <> ROLE_HOST) Demo.no_host_devices)
    by (repeat constructor; discriminate).
  split; [exact H | exact (determine_topology_no_hosts_fallback 3 _ H)].
Defined.

(** C2, as stated, fails: on two clients and a relay the selector returns
    STAR. *)
Lemma determine_topology_no_hosts_returns_star :
  ~ (forall device_count devs,
       Forall (fun d => role d <> ROLE_HOST) devs ->
       snd (determine_topology device_count devs) <> TOPOLOGY_STAR).
Proof.
  intros H. apply (H 3 Demo.no_host_devices).
  - repeat constructor; discriminate.
  - vm_compute. reflexivity.
Qed.

(** The selection table once a host exists (scenarios C and D of the
    specification, and the demo session). *)
Lemma determine_topology_scenarios :
  snd (determine_topology 3 [Demo.device1; Demo.device2; Demo.device3]) = TOPOLOGY_STAR /\
  snd (determine_topology 4 (devices Demo.session)) = TOPOLOGY_BUS /\
  snd (determine_topology 6
         [Demo.device1; Demo.device1; Demo.device2; Demo.device3;
          Demo.device4; Demo.device4]) = TOPOLOGY_MESH.
Proof. repeat split; vm_compute; reflexivity. Qed.

End Topology.

Section Compliance.

(** C3, as the code has it.  [verify_constitutional_compliance] returns 1
    exactly when [transparency_verified] and [fairness_verified] were both
    non-zero before the call, and 0 otherwise; it never reads
    [privacy_verified] but sets it to 1 itself on every call, and leaves
    the other two flags as they were. *)
Theorem verify_constitutional_compliance_spec (session : blueshare_session_t) :
  let r := verify_constitutional_compliance session in
  (snd r = 1 <->
   transparency_verified session <> 0 /\ fairness_verified session <> 0) /\
  (snd r = 0 <->
   transparency_verified session = 0 \/ fairness_verified session = 0) /\
  privacy_verified (fst r) = 1 /\
  transparency_verified (fst r) = transparency_verified session /\
  fairness_verified (fst r) = fairness_verified session.
Proof.
  unfold verify_constitutional_compliance. cbn.
  destruct (Z.eqb_spec (transparency_verified session) 0) as [Ht|Ht];
    destruct (Z.eqb_spec (fairness_verified session) 0) as [Hf|Hf];
    repeat split; intros; try tauto; try lia; try discriminate.
Qed.

(** C3, as stated, fails: a session whose costs were computed but whose
    [privacy_verified] is still 0 passes the audit. *)
Lemma compliance_passes_without_privacy :
  ~ (forall session,
       snd (verify_constitutional_compliance session) = 1 <->
       transparency_verified session <> 0 /\
       fairness_verified session <> 0 /\
       privacy_verified session <> 0).
Proof.
  intros H.
  destruct (H (calculate_cost_sharing Demo.session)) as [H1 _].
  assert (Hp : privacy_verified (calculate_cost_sharing Demo.session) = 0)
    by reflexivity.
  destruct H1 as (_ & _ & Hne); [vm_compute; reflexivity | exact (Hne Hp)].
Qed.

End Compliance.

Section CostSharing.

Lemma cost_loop_devices devs total :
  fst (cost_loop devs total) = map charge devs.
Proof.
  revert total. induction devs as [|d devs IH]; intros total; cbn; [reflexivity |].
  rewrite IH. reflexivity.
Qed.

Lemma cost_loop_total devs total :
  snd (cost_loop devs total)
  = fold_left PrimFloat.add (map balance_usd (fst (cost_loop devs total))) total.
Proof.
  revert total. induction devs as [|d devs IH]; intros total; cbn; [reflexivity |].
  apply IH.
Qed.

(** C5, as the code has it.  After [calculate_cost_sharing] every device
    carries the balance
    [mb_used * (1.25 * 15.0 * 0.866) * 0.00001], where [mb_used] is the
    [uint64_t] sum [bytes_sent + bytes_received] converted to [double] and
    divided by [1024.0 * 1024.0], all in binary64 and grouped as the source
    groups it; its other fields are untouched; and [total_cost_usd] is
    exactly the sum of the stored balances added one by one, from 0, in
    list order.  The two cost flags are set. *)
Theorem calculate_cost_sharing_balances_and_total (session : blueshare_session_t) :
  let session' := calculate_cost_sharing session in
  length (devices session') = length (devices session) /\
  (forall i d,
     devices session !! i = Some d ->
     exists d',
       devices session' !! i = Some d' /\
       d' = set_balance_usd d (balance_usd d') /\
       balance_usd d' =
         (Z2double ((bytes_sent d + bytes_received d) mod 2 ^ 64)
          / (1024.0 * 1024.0) * (1.25 * 15.0 * 0.866) * 0.00001)%float) /\
  total_cost_usd session' =
    fold_left PrimFloat.add (map balance_usd (devices session')) 0%float /\
  transparency_verified session' = 1 /\
  fairness_verified session' = 1.
Proof.
  cbn zeta. unfold calculate_cost_sharing. cbn [devices total_cost_usd
    transparency_verified fairness_verified].
  repeat split.
  - rewrite cost_loop_devices. apply length_map.
  - intros i d Hd. exists (charge d). rewrite cost_loop_devices.
    rewrite list_lookup_fmap, Hd. repeat split.
  - apply cost_loop_total.
Qed.

(** C5, as stated, fails twice over.  Multiplied in the order written,
    the product for the seven megabytes of Alice's phone is 0.001136625,
    while the stored balance, which multiplies by the precomputed
    [work_per_mb], is 0.0011366250000000003.  And with the source's own
    grouping but the plain sum of the counters, a device that sent
    2^64 - 1 bytes and received 2 would owe some 2.86e9 dollars, while the
    [uint64_t] sum wraps to 1 and the stored balance is about 1.5e-10. *)
Lemma balance_formula_as_stated_fails :
  ~ (forall session,
       map balance_usd (devices (calculate_cost_sharing session))
       = map Spec.balance_usd (devices session)) /\
  ~ (forall session,
       map balance_usd (devices (calculate_cost_sharing session))
       = map (fun d => (Spec.mb_used d * (1.25 * 15.0 * 0.866) * 0.00001)%float)
           (devices session)).
Proof.
  split; intros H.
  - specialize (H Demo.session).
    apply (f_equal (fun l => Prim2SF (nth 0 l 0%float))) in H.
    vm_compute in H. discriminate H.
  - specialize (H (Demo.session_of 1 [Demo.heavy_client])).
    apply (f_equal (fun l => Prim2SF (nth 0 l 0%float))) in H.
    vm_compute in H. discriminate H.
Qed.

(** As long as the two counters do not add up past [UINT64_MAX], the sum
    that is converted is their plain sum. *)
Lemma mb_used_no_wrap d :
  is_uint64 (bytes_sent d) -> is_uint64 (bytes_received d) ->
  bytes_sent d + bytes_received d <= UINT64_MAX ->
  mb_used d = (Z2double (bytes_sent d + bytes_received d) / (1024.0 * 1024.0))%float.
Proof.
  unfold is_uint64, UINT64_MAX, mb_used, add_uint64. intros Hs Hr Hsum.
  rewrite Z.mod_small by lia. reflexivity.
Qed.

(** Scenario A: the seven megabytes of Alice's phone cost 0.0011366250000000003
    dollars, and the demo session's total is the sum of its four balances. *)
Lemma calculate_cost_sharing_demo :
  map balance_usd (devices (calculate_cost_sharing Demo.session))
  = [0.0011366250000000003; 0.0017861250000000002;
     0.00056831250000000013; 0.00048712500000000009]%float /\
  total_cost_usd (calculate_cost_sharing Demo.session) = 0.0039781875000000008%float.
Proof. split; vm_compute; reflexivity. Qed.

End CostSharing.

Section FairBandwidth.

Lemma sum_host_bandwidth_hosts devs total :
  sum_host_bandwidth devs total
  = fold_left PrimFloat.add (map bandwidth_mbps (hosts devs)) total.
Proof.
  unfold sum_host_bandwidth, hosts.
  revert total. induction devs as [|d devs IH]; intros total; [reflexivity |].
  cbn [fold_left]. rewrite IH, filter_cons.
  destruct (role d); case_decide; try congruence; reflexivity.
Qed.

(** C6, as the code has it.  [calculate_fair_bandwidth] stores in
    [total_bandwidth_mbps] the sum of [bandwidth_mbps] over the devices of
    role Host only, added from 0 in list order, and in [fair_share_mbps]
    the binary64 quotient [(total * 2.0) / device_count]; nothing else of
    the session changes. *)
Theorem calculate_fair_bandwidth_formula (session : blueshare_session_t) :
  let session' := calculate_fair_bandwidth session in
  total_bandwidth_mbps session' =
    fold_left PrimFloat.add (map bandwidth_mbps (hosts (devices session))) 0%float /\
  fair_share_mbps session' =
    (total_bandwidth_mbps session' * 2.0 / Z2double (device_count session))%float /\
  devices session' = devices session /\
  device_count session' = device_count session.
Proof.
  cbn zeta. unfold calculate_fair_bandwidth.
  cbn [total_bandwidth_mbps fair_share_mbps devices device_count].
  rewrite sum_host_bandwidth_hosts. repeat split.
Qed.

(** Scenario A: one host of 10 Mbps among four devices gives a fair share
    of 5 Mbps, and there the product is exact. *)
Lemma calculate_fair_bandwidth_demo :
  let session' := calculate_fair_bandwidth Demo.session in
  fair_share_mbps session' = 5.0%float /\
  (fair_share_mbps session' * Z2double (device_count session'))%float
  = (2.0 * total_bandwidth_mbps session')%float.
Proof. split; vm_compute; reflexivity. Qed.

(** A session with [device_count = 0] gets a NaN: 0.0 / 0.0. *)
Lemma calculate_fair_bandwidth_no_devices :
  fair_share_mbps (calculate_fair_bandwidth (Demo.session_of 0 [])) = nan.
Proof. vm_compute. reflexivity. Qed.

(** C6, as stated, fails: with one host of 25 Mbps among eleven devices the
    fair share is 50/11 rounded to binary64, and eleven times that is
    50.000000000000007, not 50. *)
Lemma fair_share_product_not_exact :
  ~ (forall session,
       let session' := calculate_fair_bandwidth session in
       (fair_share_mbps session' * Z2double (device_count session'))%float
       = (2.0 * total_bandwidth_mbps session')%float).
Proof.
  intros H. specialize (H Demo.eleven_devices). cbn zeta in H.
  apply (f_equal Prim2SF) in H. vm_compute in H. discriminate H.
Qed.

End FairBandwidth.

Section Payment.

Lemma integral_part_truncates m e :
  (e < 0 ->
   integral_part m e * 2 ^ (- e) <= Z.pos m < (integral_part m e + 1) * 2 ^ (- e)) /\
  (0 <= e -> integral_part m e = Z.pos m * 2 ^ e).
Proof.
  unfold integral_part. split; intros He.
  - destruct (Z.ltb_spec e 0); [| lia].
    rewrite Z.shiftr_div_pow2 by lia.
    assert (Hp : 0 < 2 ^ (- e)) by (apply Z.pow_pos_nonneg; lia).
    pose proof (Z.div_mod (Z.pos m) (2 ^ (- e)) ltac:(lia)) as Hdm.
    pose proof (Z.mod_pos_bound (Z.pos m) (2 ^ (- e)) Hp) as Hb.
    nia.
  - destruct (Z.ltb_spec e 0); [lia |].
    apply Z.shiftl_mul_pow2. lia.
Qed.

Lemma double_to_uint64_range x n :
  double_to_uint64 x = Some n -> is_uint64 n.
Proof.
  unfold double_to_uint64, is_uint64.
  destruct (Prim2SF x) as [s| s | | s m e]; try discriminate.
  - intros [= <-]. unfold UINT64_MAX. lia.
  - destruct s.
    + destruct (integral_part m e =? 0); [| discriminate].
      intros [= <-]. unfold UINT64_MAX. lia.
    + destruct (Z.leb_spec (integral_part m e) UINT64_MAX); [| discriminate].
      intros [= <-]. split; [| assumption].
      destruct (integral_part_truncates m e) as [Hneg Hpos].
      destruct (Z.ltb_spec e 0) as [He|He].
      * specialize (Hneg He).
        assert (Hp : 0 < 2 ^ (- e)) by (apply Z.pow_pos_nonneg; lia). nia.
      * rewrite (Hpos He).
        assert (Hp : 0 < 2 ^ e) by (apply Z.pow_pos_nonneg; lia). nia.
Qed.

(** C8, as the code has it.  The invoice built by
    [process_lightning_payment] expires at [now + 600] and is AUTHORIZED;
    its amount is the binary64 product
    [amount_usd * (1.0 / 40000.0) * 100000000] cast to [uint64_t], the rate
    of 40,000 dollars per bitcoin being fixed in the function.  The cast
    discards the fraction: for a positive product [m * 2^e] the amount [n]
    satisfies [n <= m * 2^e < n + 1], and it is a [uint64_t] value. *)
Theorem process_lightning_payment_invoice
  (device : device_node_t) (amount_usd : float) (now : Z) :
  let payment := snd (fst (process_lightning_payment device amount_usd now)) in
  let product := (amount_usd * (1.0 / 40000.0) * Z2double 100000000)%float in
  expiry payment = now + 600 /\
  status payment = PAYMENT_AUTHORIZED /\
  amount_satoshi payment = double_to_uint64 product /\
  (forall n, amount_satoshi payment = Some n ->
     is_uint64 n /\
     forall m e, Prim2SF product = S754_finite false m e ->
       (e < 0 -> n * 2 ^ (- e) <= Z.pos m < (n + 1) * 2 ^ (- e)) /\
       (0 <= e -> n = Z.pos m * 2 ^ e)).
Proof.
  cbn zeta. unfold process_lightning_payment.
  cbn [fst snd expiry status amount_satoshi].
  change (amount_usd * btc_per_usd * Z2double satoshi_per_btc)%float
    with (amount_usd * (1.0 / 40000.0) * Z2double 100000000)%float.
  split; [reflexivity |]. split; [reflexivity |]. split; [reflexivity |].
  intros n Hn. split; [exact (double_to_uint64_range _ _ Hn) |].
  intros m e Hme. unfold double_to_uint64 in Hn. rewrite Hme in Hn.
  destruct (integral_part m e <=? UINT64_MAX); [| discriminate].
  injection Hn as <-. apply integral_part_truncates.
Qed.

(** The payments of the demo: Bob owes 0.0017861250000000002 dollars, which
    is 4.46 satoshi, and is invoiced 4. *)
Lemma process_lightning_payment_demo :
  snd (fst (process_lightning_payment Demo.device2 0.0017861250000000002%float 1000))
  = mk_payment (Some "lnbc4u1p...") (Some 4) 1600 PAYMENT_AUTHORIZED.
Proof. vm_compute. reflexivity. Qed.

(** C8, as stated, fails: 0.0007 dollars are 1.75 satoshi, which banker's
    rounding at the default rate takes to 2; the invoice carries 1. *)
Lemma invoice_amount_is_truncated :
  ~ (forall device amount_usd now,
       amount_satoshi (snd (fst (process_lightning_payment device amount_usd now)))
       = Spec.invoice_satoshi Spec.default_rate_usd_per_btc amount_usd).
Proof.
  intros H. specialize (H Demo.device2 0.0007%float 0).
  vm_compute in H. discriminate H.
Qed.

End Payment.

Section PaymentStates.

Import Steps.

Lemma kept_or_settled_refl devs : kept_or_settled devs devs.
Proof. intros i d' H. exists d'. split; [exact H | left; reflexivity]. Qed.

Lemma kept_or_settled_trans l1 l2 l3 :
  kept_or_settled l1 l2 -> kept_or_settled l2 l3 -> kept_or_settled l1 l3.
Proof.
  intros H12 H23 i d3 H3.
  destruct (H23 i d3 H3) as (d2 & H2 & Hs23).
  destruct (H12 i d2 H2) as (d1 & H1 & Hs12).
  exists d1. split; [exact H1 |].
  destruct Hs23 as [-> | ->]; [exact Hs12 | right; reflexivity].
Qed.

Lemma kept_or_settled_insert devs i d x :
  devs !! i = Some d ->
  payment_status x = payment_status d \/ payment_status x = PAYMENT_SETTLED ->
  kept_or_settled devs (<[i := x]> devs).
Proof.
  intros Hd Hx j d' Hj.
  apply list_lookup_insert_Some in Hj as [(-> & -> & _) | (_ & Hj)].
  - exists d. split; assumption.
  - exists d'. split; [exact Hj | left; reflexivity].
Qed.

Lemma session_step_kept_or_settled s s' :
  session_step s s' -> kept_or_settled (devices s) (devices s').
Proof.
  intros Hstep. destruct Hstep; cbn [devices].
  - eapply kept_or_settled_insert; [eassumption | left; reflexivity].
  - apply kept_or_settled_refl.
  - apply kept_or_settled_refl.
  - unfold calculate_cost_sharing. cbn [devices]. rewrite cost_loop_devices.
    intros j d' Hj. rewrite list_lookup_fmap in Hj.
    destruct (devices s !! j) as [d|]; [| discriminate].
    injection Hj as <-. exists d. split; [reflexivity | left; reflexivity].
  - eapply kept_or_settled_insert; [eassumption | right; reflexivity].
  - apply kept_or_settled_refl.
Qed.

Lemma session_run_kept_or_settled s s' :
  session_run s s' -> kept_or_settled (devices s) (devices s').
Proof.
  intros Hrun. induction Hrun as [s | s1 s2 s3 Hstep _ IH].
  - apply kept_or_settled_refl.
  - eapply kept_or_settled_trans; [| exact IH].
    apply session_step_kept_or_settled. exact Hstep.
Qed.

(** In particular a session that starts with no device PROCESSING or FAILED
    never has one. *)
Lemma never_processing_or_failed s s' :
  Forall (fun d => payment_status d <> PAYMENT_PROCESSING /\
                   payment_status d <> PAYMENT_FAILED) (devices s) ->
  session_run s s' ->
  Forall (fun d => payment_status d <> PAYMENT_PROCESSING /\
                   payment_status d <> PAYMENT_FAILED) (devices s').
Proof.
  intros Hinit Hrun. apply Forall_lookup. intros i d' Hd'.
  destruct (session_run_kept_or_settled s s' Hrun i d' Hd') as (d & Hd & Hs).
  pose proof (proj1 (Forall_lookup _ _) Hinit i d Hd) as [Hp Hf].
  destruct Hs as [-> | ->]; split; try assumption; discriminate.
Qed.

(** C10.  For every device and amount [process_lightning_payment] returns
    1 and leaves the device SETTLED.  Along any sequence of calls of the
    core's functions, the payment state of a device is the one it started
    with or SETTLED: nothing assigns PROCESSING or FAILED (or any other
    state) to a device. *)
Theorem process_lightning_payment_always_settles :
  (forall device amount_usd now,
     let r := process_lightning_payment device amount_usd now in
     snd r = 1 /\ payment_status (fst (fst r)) = PAYMENT_SETTLED) /\
  (forall s s', session_run s s' ->
     forall i d', devices s' !! i = Some d' ->
       exists d, devices s !! i = Some d /\
         (payment_status d' = payment_status d \/
          payment_status d' = PAYMENT_SETTLED)).
Proof.
  split.
  - intros device amount_usd now. cbn. split; reflexivity.
  - intros s s' Hrun. exact (session_run_kept_or_settled s s' Hrun).
Qed.

End PaymentStates.

(** ** Properties of the identity layer *)

Section ProofOfPossession.

Import Zero.

Variable SHA256 : list byte -> list byte.

Lemma fold_digest_step_zero given expected idx :
  fold_left (digest_step given expected) idx 0 = 0.
Proof.
  induction idx as [|i idx IH]; [reflexivity |].
  cbn [fold_left]. unfold digest_step at 2. rewrite Z.land_0_l. exact IH.
Qed.

(** All compared bytes equal: the loop ends with 1. *)
Lemma compare_digests_equal given expected idx :
  (forall i, In i idx -> nth i given x00 = nth i expected x00) ->
  compare_digests given expected idx = 1.
Proof.
  unfold compare_digests.
  induction idx as [|i idx IH]; intros Heq; [reflexivity |].
  cbn [fold_left]. unfold digest_step at 2.
  rewrite (Heq i (or_introl eq_refl)).
  rewrite (byte_dec_lb eq_refl). cbn [Z.land Pos.land].
  apply IH. intros j Hj. apply Heq. right. exact Hj.
Qed.

(** One compared byte differs: the loop ends with 0, wherever the
    difference is. *)
Lemma fold_digest_step_differ given expected idx i acc :
  In i idx -> nth i given x00 <> nth i expected x00 ->
  fold_left (digest_step given expected) idx acc = 0.
Proof.
  revert acc. induction idx as [|j idx IH]; intros acc Hin Hne.
  - destruct Hin.
  - cbn [fold_left]. destruct Hin as [-> | Hin].
    + unfold digest_step at 2.
      destruct (Byte.eqb (nth i given x00) (nth i expected x00)) eqn:E.
      * apply byte_dec_bl in E. contradiction.
      * rewrite Z.land_0_r. apply fold_digest_step_zero.
    + apply IH; assumption.
Qed.

Lemma compare_digests_differ given expected idx i :
  In i idx -> nth i given x00 <> nth i expected x00 ->
  compare_digests given expected idx = 0.
Proof. apply fold_digest_step_differ. Qed.

(** C4.  For a well-formed ZeroID and a challenge of 32 bytes,
    [create_proof] yields a proof holding the challenge and the digest
    [SHA256(zid.hash || challenge)], and [verify_proof] accepts it
    (returns 1).  Any proof over a 32-byte challenge whose digest differs
    in at least one of its 32 bytes from
    [SHA256(zid.hash || proof.challenge)] is refused (returns 0). *)
Theorem verify_proof_roundtrip_and_tamper
  (ctx : zero_context_t) (zid : zero_id_t) (chal : list byte) (now : Z) :
  wf_zero_id zid ->
  length chal = 32%nat ->
  (exists p,
     create_proof SHA256 ctx zid chal 32 now = Some p /\
     challenge p = chal /\
     proof p = SHA256 (hash zid ++ chal) /\
     verify_proof SHA256 ctx p zid = 1) /\
  (forall p,
     length (challenge p) = 32%nat ->
     (exists i, (i < 32)%nat /\
        nth i (proof p) x00 <> nth i (SHA256 (hash zid ++ challenge p)) x00) ->
     verify_proof SHA256 ctx p zid = 0).
Proof.
  intros [Hhash _] Hchal. split.
  - eexists. unfold create_proof.
    rewrite decide_True by (rewrite Hchal; lia).
    split; [reflexivity |]. cbn [challenge proof].
    assert (Hcopy : memcpy (zeroed 32) chal 32 = chal).
    { unfold memcpy, zeroed. rewrite (take_ge chal) by lia.
      rewrite drop_ge by (rewrite length_replicate; lia). apply app_nil_r. }
    rewrite Hcopy, (take_ge (hash zid)), (take_ge chal) by lia.
    repeat split. unfold verify_proof. cbn [challenge proof].
    rewrite (take_ge (hash zid)), (take_ge chal) by lia.
    apply compare_digests_equal. reflexivity.
  - intros p Hp (i & Hi & Hne). unfold verify_proof.
    rewrite (take_ge (hash zid)), (take_ge (challenge p)) by lia.
    apply (compare_digests_differ _ _ _ i); [| exact Hne].
    apply in_seq. unfold SHA256_DIGEST_LENGTH. lia.
Qed.

End ProofOfPossession.

Lemma verify_proof_roundtrip_and_tamper_witness :
  Zero.wf_zero_id ZeroDemo.alice_zid /\
  length ZeroDemo.challenge = 32%nat /\
  exists p,
    Zero.create_proof ZeroDemo.toy_digest ZeroDemo.ctx ZeroDemo.alice_zid
      ZeroDemo.challenge 32 0 = Some p /\
    Zero.verify_proof ZeroDemo.toy_digest ZeroDemo.ctx p ZeroDemo.alice_zid = 1.
Proof.
  assert (Hwf : Zero.wf_zero_id ZeroDemo.alice_zid) by (split; reflexivity).
  assert (Hlen : length ZeroDemo.challenge = 32%nat) by reflexivity.
  split; [exact Hwf |]. split; [exact Hlen |].
  destruct (verify_proof_roundtrip_and_tamper ZeroDemo.toy_digest ZeroDemo.ctx
              ZeroDemo.alice_zid ZeroDemo.challenge 0 Hwf Hlen)
    as [(p & Hc & _ & _ & Hv) _].
  exists p. split; assumption.
Defined.

Section IdentityStore.

Import Zero.



End IdentityStore.

(** ** Further properties of the session core *)

Section TopologyTable.

(** X1.  Once a host exists the selector prints the topology it returns, and
    the four topologies split the plane of [device_count] and the number
    of hosts: STAR for one host and at most three devices; BUS for at most
    two hosts and at most five devices otherwise; MESH for two hosts and
    more than five devices or for three hosts and more; HYBRID for one
    host and more than five devices. *)
Theorem determine_topology_table (device_count : Z) (devs : list device_node_t) :
  hosts devs <> [] ->
  let host_count := Z.of_nat (length (hosts devs)) in
  let r := determine_topology device_count devs in
  fst r = TOPOLOGY_SELECTED (snd r) /\
  (snd r = TOPOLOGY_STAR <-> host_count = 1 /\ device_count <= 3) /\
  (snd r = TOPOLOGY_BUS <->
   host_count <= 2 /\ device_count <= 5 /\ ~ (host_count = 1 /\ device_count <= 3)) /\
  (snd r = TOPOLOGY_MESH <-> 2 <= host_count /\ (5 < device_count \/ 3 <= host_count)) /\
  (snd r = TOPOLOGY_HYBRID <-> host_count = 1 /\ 5 < device_count).
Proof.
  intros Hhost. cbn zeta. unfold determine_topology.
  rewrite count_hosts_length.
  assert (Hpos : 1 <= Z.of_nat (length (hosts devs))).
  { destruct (hosts devs); [contradiction | cbn [length]; lia]. }
  set (hc := Z.of_nat (length (hosts devs))) in *.
  destruct (Z.eqb_spec hc 0) as [|_]; [lia |].
  destruct (Z.leb_spec device_count 3), (Z.eqb_spec hc 1),
    (Z.leb_spec device_count 5), (Z.leb_spec hc 2), (Z.leb_spec 2 hc);
    cbn [andb fst snd]; repeat split; intros;
    try discriminate; try lia; try reflexivity.
Qed.

Lemma determine_topology_table_witness :
  hosts (devices Demo.session) <> [] /\
  snd (determine_topology 4 (devices Demo.session)) = TOPOLOGY_BUS.
Proof.
  assert (H : hosts (devices Demo.session) <> []) by (vm_compute; discriminate).
  split; [exact H |].
  destruct (determine_topology_table 4 _ H) as (_ & _ & Hbus & _).
  apply Hbus.
  assert (E : Z.of_nat (length (hosts (devices Demo.session))) = 1) by reflexivity.
  rewrite E. lia.
Defined.

End TopologyTable.

Section OrderIndependence.

Lemma voters_length_perm st (l1 l2 : list device_node_t) :
  l1 ≡ₚ l2 -> length (voters st l1) = length (voters st l2).
Proof. intros H. unfold voters. rewrite H. reflexivity. Qed.

Lemma tally_votes_perm (l1 l2 : list device_node_t) :
  l1 ≡ₚ l2 -> tally_votes l1 = tally_votes l2.
Proof.
  intros H.
  destruct (tally_votes_counts l1) as (Hy1 & Hn1 & Hm1).
  destruct (tally_votes_counts l2) as (Hy2 & Hn2 & Hm2).
  rewrite (voters_length_perm STATE_YES _ _ H) in Hy1.
  rewrite (voters_length_perm STATE_NO _ _ H) in Hn1.
  rewrite (voters_length_perm STATE_MAYBE _ _ H) in Hm1.
  destruct (tally_votes l1), (tally_votes l2); cbn in *. congruence.
Qed.

(** X2.  The order of the device list matters neither to the consensus nor to
    the topology: two sessions whose lists are permutations of each other,
    with the same [device_count], get the same verdict, the same return
    value and the same topology. *)
Theorem consensus_and_topology_ignore_order (s1 s2 : blueshare_session_t) :
  devices s1 ≡ₚ devices s2 ->
  device_count s1 = device_count s2 ->
  verify_network_consensus s1 = verify_network_consensus s2 /\
  determine_topology (device_count s1) (devices s1)
  = determine_topology (device_count s2) (devices s2).
Proof.
  intros Hperm Hcount. split.
  - unfold verify_network_consensus.
    rewrite (tally_votes_perm _ _ Hperm), Hcount. reflexivity.
  - assert (E : length (hosts (devices s1)) = length (hosts (devices s2)))
      by (unfold hosts; rewrite Hperm; reflexivity).
    unfold determine_topology. rewrite !count_hosts_length, Hcount, E. reflexivity.
Qed.

Lemma consensus_and_topology_ignore_order_witness :
  verify_network_consensus Demo.session
  = verify_network_consensus
      (Demo.session_of 4 (reverse (devices Demo.session))).
Proof.
  refine (proj1 (consensus_and_topology_ignore_order Demo.session
                   (Demo.session_of 4 (reverse (devices Demo.session))) _ _)).
  - cbn [devices Demo.session_of]. symmetry. apply reverse_Permutation.
  - reflexivity.
Defined.

End OrderIndependence.

Section ConsensusOutcome.

(** X3.  [verify_network_consensus] returns 1 exactly when no device holds NO
    and the devices holding YES number at least [device_count / 2] rounded
    down, and 0 in every other case; MAYBE and EPSILON devices weigh in
    only through [device_count]. *)
Theorem verify_network_consensus_returns_one_iff (session : blueshare_session_t) :
  let r := verify_network_consensus session in
  (snd r = 1 <->
   voters STATE_NO (devices session) = [] /\
   device_count session / 2 <= Z.of_nat (length (voters STATE_YES (devices session)))) /\
  (snd r = 1 \/ snd r = 0) /\
  (snd r = 1 <-> fst r = CONSENSUS_VERIFIED).
Proof.
  cbn zeta.
  destruct (verify_network_consensus_cases session) as (Hrej & Hver & Hpen).
  set (yes := Z.of_nat (length (voters STATE_YES (devices session)))) in *.
  destruct (voters STATE_NO (devices session)) as [|d no] eqn:Eno.
  - cbn [length] in *.
    destruct (Z.le_gt_cases (device_count session / 2) yes) as [Hle|Hgt].
    + rewrite (Hver eq_refl Hle). cbn. repeat split; auto.
    + rewrite (Hpen eq_refl Hgt). cbn.
      repeat split; auto; intros; try discriminate; try lia.
  - rewrite Hrej by (cbn [length]; lia). cbn.
    repeat split; auto; intros; try discriminate; try tauto.
    destruct H as [H _]. discriminate H.
Qed.

(** A device that just answered [request_device_consent] holds YES. *)
Lemma polled_device_votes_yes d now :
  is_uint8 (rssi d) ->
  state (consent_state (fst (request_device_consent d now))) = STATE_YES.
Proof.
  intros [Hlo _]. unfold request_device_consent. cbn.
  destruct (Z.ltb_spec (-70) (rssi d)); [reflexivity | lia].
Qed.

Lemma voters_all st (devs : list device_node_t) :
  Forall (fun d => state (consent_state d) = st) devs -> voters st devs = devs.
Proof.
  intros H. unfold voters. induction H as [|d devs Hd _ IH]; [reflexivity |].
  rewrite filter_cons, decide_True by exact Hd. rewrite IH. reflexivity.
Qed.

Lemma voters_none st st' (devs : list device_node_t) :
  st <> st' ->
  Forall (fun d => state (consent_state d) = st) devs -> voters st' devs = [].
Proof.
  intros Hne H. unfold voters. induction H as [|d devs Hd _ IH]; [reflexivity |].
  rewrite filter_cons, decide_False by congruence. exact IH.
Qed.

(** X4.  Polling composes with the aggregation: when every device of the
    session was last answered for by [request_device_consent], all of them
    count as YES and none as NO or MAYBE, so the consensus is never
    REJECTED, and it is VERIFIED exactly when [device_count / 2] does not
    exceed the number of devices in the list. *)
Theorem consensus_after_polling
  (session : blueshare_session_t) (before : list device_node_t) :
  Forall (fun d => is_uint8 (rssi d)) before ->
  Forall2 (fun d d' => exists now, d' = fst (request_device_consent d now))
    before (devices session) ->
  tally_votes (devices session)
  = mk_counts (Z.of_nat (length (devices session))) 0 0 /\
  fst (verify_network_consensus session) <> CONSENSUS_REJECTED /\
  (verify_network_consensus session = (CONSENSUS_VERIFIED, 1) <->
   device_count session / 2 <= Z.of_nat (length (devices session))).
Proof.
  intros Hrssi Hpoll.
  assert (Hyes : Forall (fun d => state (consent_state d) = STATE_YES) (devices session)).
  { induction Hpoll as [|d d' l l' [now ->] _ IH]; constructor.
    - apply polled_device_votes_yes. exact (Forall_inv Hrssi).
    - apply IH. exact (Forall_inv_tail Hrssi). }
  assert (Htally : tally_votes (devices session)
                   = mk_counts (Z.of_nat (length (devices session))) 0 0).
  { destruct (tally_votes_counts (devices session)) as (Hy & Hn & Hm).
    rewrite (voters_all _ _ Hyes) in Hy.
    rewrite (voters_none STATE_YES STATE_NO) in Hn by (discriminate || exact Hyes).
    rewrite (voters_none STATE_YES STATE_MAYBE) in Hm by (discriminate || exact Hyes).
    destruct (tally_votes (devices session)); cbn in *. subst. reflexivity. }
  split; [exact Htally |].
  unfold verify_network_consensus. rewrite Htally. cbn [no_count yes_count].
  change (0 <? 0) with false. cbv iota.
  destruct (Z.leb_spec (device_count session / 2)
              (Z.of_nat (length (devices session)))); cbn [fst].
  - split; [discriminate |]. split; [intros _; assumption | reflexivity].
  - split; [discriminate |]. split; [discriminate | lia].
Qed.

Lemma consensus_after_polling_witness :
  verify_network_consensus
    (Demo.session_of 4
       (map (fun d => fst (request_device_consent d 0)) (devices Demo.session)))
  = (CONSENSUS_VERIFIED, 1).
Proof.
  refine (proj2 (proj2 (proj2 (consensus_after_polling
            (Demo.session_of 4
               (map (fun d => fst (request_device_consent d 0)) (devices Demo.session)))
            (devices Demo.session) _ _))) _).
  - repeat constructor; vm_compute; discriminate.
  - cbn [devices Demo.session_of Demo.session map].
    repeat constructor; exists 0; reflexivity.
  - vm_compute. discriminate.
Defined.

End ConsensusOutcome.

Section CostAndCompliance.

Lemma cost_loop_charged devs total :
  cost_loop (map charge devs) total = cost_loop devs total.
Proof.
  revert total. induction devs as [|d devs IH]; intros total; [reflexivity |].
  cbn [map cost_loop]. change (device_cost (charge d)) with (device_cost d).
  rewrite IH. reflexivity.
Qed.

Lemma sum_host_bandwidth_charged devs total :
  sum_host_bandwidth (map charge devs) total = sum_host_bandwidth devs total.
Proof.
  unfold sum_host_bandwidth.
  revert total. induction devs as [|d devs IH]; intros total; [reflexivity |].
  cbn [map fold_left]. rewrite IH. reflexivity.
Qed.

(** X5.  Computing the costs twice is computing them once: the balances and the
    totals depend on the byte counters only, which the computation leaves
    alone. *)
Theorem calculate_cost_sharing_idempotent (session : blueshare_session_t) :
  calculate_cost_sharing (calculate_cost_sharing session)
  = calculate_cost_sharing session.
Proof.
  unfold calculate_cost_sharing.
  cbn [devices session_id topology device_count total_bandwidth_mbps
         fair_share_mbps session_start session_end is_active privacy_verified].
  rewrite (cost_loop_devices (devices session)), cost_loop_charged.
  rewrite (cost_loop_devices (devices session)). reflexivity.
Qed.

(** X6.  The bandwidth allocation and the cost computation can be run in either
    order: they write different fields and neither reads what the other
    writes. *)
Theorem fair_bandwidth_and_cost_sharing_commute (session : blueshare_session_t) :
  calculate_fair_bandwidth (calculate_cost_sharing session)
  = calculate_cost_sharing (calculate_fair_bandwidth session).
Proof.
  unfold calculate_fair_bandwidth, calculate_cost_sharing.
  cbn [devices session_id topology device_count total_bandwidth_mbps
         fair_share_mbps total_cost_usd cost_per_device session_start
         session_end is_active transparency_verified fairness_verified
         privacy_verified].
  rewrite cost_loop_devices, sum_host_bandwidth_charged. reflexivity.
Qed.

Import Steps.

Lemma session_step_keeps_flags s s' :
  session_step s s' ->
  (transparency_verified s <> 0 -> transparency_verified s' <> 0) /\
  (fairness_verified s <> 0 -> fairness_verified s' <> 0) /\
  (privacy_verified s <> 0 -> privacy_verified s' <> 0).
Proof.
  intros Hstep. destruct Hstep; cbn; repeat split; auto; discriminate.
Qed.

Lemma session_run_keeps_flags s s' :
  session_run s s' ->
  (transparency_verified s <> 0 -> transparency_verified s' <> 0) /\
  (fairness_verified s <> 0 -> fairness_verified s' <> 0) /\
  (privacy_verified s <> 0 -> privacy_verified s' <> 0).
Proof.
  intros Hrun. induction Hrun as [s | s1 s2 s3 Hstep _ IH]; [tauto |].
  destruct (session_step_keeps_flags _ _ Hstep) as (Ht & Hf & Hp). tauto.
Qed.

(** X7.  No call of the core clears a compliance flag.  So once the costs have
    been computed, the audit passes, and it keeps passing whatever calls
    follow. *)
Theorem compliance_passes_after_cost_sharing (session later : blueshare_session_t) :
  session_run (calculate_cost_sharing session) later ->
  snd (verify_constitutional_compliance later) = 1 /\
  transparency_verified later <> 0 /\ fairness_verified later <> 0.
Proof.
  intros Hrun.
  destruct (session_run_keeps_flags _ _ Hrun) as (Ht & Hf & _).
  assert (Ht' : transparency_verified later <> 0) by (apply Ht; discriminate).
  assert (Hf' : fairness_verified later <> 0) by (apply Hf; discriminate).
  split; [| split; assumption].
  unfold verify_constitutional_compliance. cbn [snd].
  destruct (Z.eqb_spec (transparency_verified later) 0); [contradiction |].
  destruct (Z.eqb_spec (fairness_verified later) 0); [contradiction |].
  reflexivity.
Qed.

Lemma compliance_passes_after_cost_sharing_witness :
  snd (verify_constitutional_compliance
         (calculate_fair_bandwidth (calculate_cost_sharing Demo.session))) = 1.
Proof.
  refine (proj1 (compliance_passes_after_cost_sharing Demo.session _ _)).
  eapply run_step; [apply step_bandwidth | apply run_done].
Defined.

End CostAndCompliance.

Section SessionData.

Import Steps.

#[local] Instance same_device_data_refl : Reflexive same_device_data.
Proof. intros d. unfold same_device_data. tauto. Qed.

#[local] Instance same_device_data_trans : Transitive same_device_data.
Proof.
  intros a b c Hab Hbc. unfold same_device_data in *.
  destruct Hab as (?&?&?&?&?&?&?&?&?&?), Hbc as (?&?&?&?&?&?&?&?&?&?).
  repeat split; congruence.
Qed.

Lemma same_device_data_insert devs i d d' :
  devs !! i = Some d -> same_device_data d d' ->
  Forall2 same_device_data devs (<[i := d']> devs).
Proof.
  intros Hd Hsame. apply Forall2_same_length_lookup. split.
  - rewrite length_insert. reflexivity.
  - intros j x y Hx Hy.
    apply list_lookup_insert_Some in Hy as [(-> & -> & _) | (_ & Hy)].
    + rewrite Hd in Hx. injection Hx as <-. exact Hsame.
    + rewrite Hx in Hy. injection Hy as <-. reflexivity.
Qed.

Lemma session_step_same_data s s' : session_step s s' -> same_session_data s s'.
Proof.
  intros Hstep. unfold same_session_data.
  destruct Hstep; cbn [session_id device_count session_start session_end
    is_active devices calculate_fair_bandwidth calculate_cost_sharing
    verify_constitutional_compliance fst];
    repeat (split; [reflexivity |]); try reflexivity.
  - eapply same_device_data_insert; [eassumption |].
    unfold same_device_data. cbn. tauto.
  - rewrite cost_loop_devices. apply Forall2_fmap_r, Forall_Forall2_diag, Forall_forall.
    intros d _. unfold same_device_data. cbn. tauto.
  - eapply same_device_data_insert; [eassumption |].
    unfold same_device_data. cbn. tauto.
Qed.

(** X8.  Whatever calls of the core are made, the session keeps its identifier,
    its [device_count], its start, end and activity marks, and the same
    number of devices in the same positions; of a device only the balance,
    the payment state and the consent state ever change: identifiers,
    roles, signal and the byte counters are never written. *)
Theorem session_run_same_data (s s' : blueshare_session_t) :
  Steps.session_run s s' -> same_session_data s s'.
Proof.
  intros Hrun. induction Hrun as [s | s1 s2 s3 Hstep _ IH].
  - unfold same_session_data. repeat (split; [reflexivity |]). reflexivity.
  - destruct (session_step_same_data _ _ Hstep) as (H1 & H2 & H3 & H4 & H5 & H6).
    destruct IH as (I1 & I2 & I3 & I4 & I5 & I6).
    unfold same_session_data. repeat split; try congruence.
    etransitivity; eassumption.
Qed.

Lemma session_run_same_data_witness :
  same_session_data Demo.session
    (calculate_cost_sharing (calculate_fair_bandwidth Demo.session)).
Proof.
  apply session_run_same_data.
  eapply run_step; [apply step_bandwidth |].
  eapply run_step; [apply step_cost | apply run_done].
Defined.

End SessionData.

Section InvoiceText.

Lemma string_length_app (s1 s2 : string) :
  String.length (s1 +:+ s2) = (String.length s1 + String.length s2)%nat.
Proof. induction s1 as [|c s1 IH]; simpl; [reflexivity | f_equal; exact IH]. Qed.

Lemma pretty_N_go_length (k : nat) : forall (x : N) (s : string),
  (x < 10 ^ N.of_nat k)%N ->
  (String.length (pretty_N_go x s) <= String.length s + k)%nat.
Proof.
  induction k as [|k IH]; intros x s Hx.
  - assert (x = 0%N) as -> by (cbn in Hx; lia). rewrite pretty_N_go_0. lia.
  - destruct (decide (x = 0%N)) as [-> | Hne].
    + rewrite pretty_N_go_0. lia.
    + rewrite pretty_N_go_step by lia.
      etransitivity; [apply IH |].
      * apply N.Div0.div_lt_upper_bound.
        rewrite Nat2N.inj_succ, N.pow_succ_r' in Hx. exact Hx.
      * cbn [String.length]. lia.
Qed.

(** The decimal text of a [uint64_t] has at most 20 digits. *)
Lemma pretty_uint64_length (n : Z) :
  is_uint64 n -> (String.length (pretty (Z.to_N n)) <= 20)%nat.
Proof.
  intros [Hlo Hhi]. unfold UINT64_MAX in Hhi.
  unfold pretty, pretty_N. case_decide; [cbn; lia |].
  etransitivity; [apply (pretty_N_go_length 20) |]; [| cbn; lia].
  change (10 ^ N.of_nat 20)%N with 100000000000000000000%N. lia.
Qed.

(** X9.  Whenever [process_lightning_payment] produces an invoice text, it is
    ["lnbc"], the decimal satoshi amount and ["u1p..."], at most 30
    characters in all: the 256-byte [invoice] buffer never truncates it. *)
Theorem invoice_text_fits
  (device : device_node_t) (amount_usd : float) (now : Z) (text : string) :
  invoice (snd (fst (process_lightning_payment device amount_usd now))) = Some text ->
  exists n,
    amount_satoshi (snd (fst (process_lightning_payment device amount_usd now))) = Some n /\
    text = "lnbc" +:+ pretty (Z.to_N n) +:+ "u1p..." /\
    (String.length text <= 30)%nat.
Proof.
  unfold process_lightning_payment. cbn [fst snd invoice amount_satoshi].
  destruct (double_to_uint64 _) as [n|] eqn:En; [| discriminate].
  cbn [fmap option_fmap option_map]. intros [= <-].
  exists n. split; [reflexivity |]. split; [reflexivity |].
  rewrite !string_length_app.
  pose proof (pretty_uint64_length n (double_to_uint64_range _ _ En)) as Hlen.
  cbn [String.length]. lia.
Qed.

Lemma invoice_text_fits_witness :
  exists n,
    amount_satoshi (snd (fst (process_lightning_payment Demo.device2
                                0.0017861250000000002%float 1000))) = Some n /\
    "lnbc4u1p..." = "lnbc" +:+ pretty (Z.to_N n) +:+ "u1p..." /\
    (String.length "lnbc4u1p..." <= 30)%nat.
Proof.
  apply (invoice_text_fits Demo.device2 0.0017861250000000002%float 1000).
  vm_compute. reflexivity.
Defined.

End InvoiceText.

(** ** Further properties of the identity layer *)

Section ProofChecks.

Import Zero.

Variable SHA256 : list byte -> list byte.

Lemma fold_digest_step_bit given expected idx acc :
  acc = 0 \/ acc = 1 ->
  fold_left (digest_step given expected) idx acc = 0 \/
  fold_left (digest_step given expected) idx acc = 1.
Proof.
  revert acc. induction idx as [|i idx IH]; intros acc Hacc; [exact Hacc |].
  cbn [fold_left]. apply IH. unfold digest_step.
  destruct Hacc as [-> | ->], (Byte.eqb _ _); cbn; auto.
Qed.

(** The loop over the 32 indices ends with 1 exactly when the two arrays
    agree at each of them. *)
Lemma compare_digests_one_iff (given expected : list byte) :
  compare_digests given expected (seq 0 SHA256_DIGEST_LENGTH) = 1 <->
  forall i, (i < 32)%nat -> nth i given x00 = nth i expected x00.
Proof.
  split.
  - intros Hone i Hi.
    destruct (Byte.eqb (nth i given x00) (nth i expected x00)) eqn:E;
      [apply byte_dec_bl; exact E |].
    apply Byte.eqb_false in E.
    rewrite (compare_digests_differ _ _ _ i) in Hone; [discriminate | | exact E].
    apply in_seq. unfold SHA256_DIGEST_LENGTH. lia.
  - intros Hall. apply compare_digests_equal. intros i Hi.
    apply in_seq in Hi. apply Hall. unfold SHA256_DIGEST_LENGTH in Hi. lia.
Qed.

(** X10.  [verify_proof] returns 1 or 0 and nothing else, and it returns 1
    exactly when the 32 bytes of the proof's digest are, one by one, those
    of [SHA256(zid.hash || proof.challenge)]. *)
Theorem verify_proof_accepts_iff
  (ctx : zero_context_t) (p : zero_proof_t) (zid : zero_id_t) :
  let expected := SHA256 (take 32 (hash zid) ++ take 32 (challenge p)) in
  (verify_proof SHA256 ctx p zid = 1 <->
   forall i, (i < 32)%nat -> nth i (proof p) x00 = nth i expected x00) /\
  (verify_proof SHA256 ctx p zid = 1 \/ verify_proof SHA256 ctx p zid = 0).
Proof.
  cbn zeta. unfold verify_proof. split.
  - apply compare_digests_one_iff.
  - unfold compare_digests.
    destruct (fold_digest_step_bit (proof p)
                (SHA256 (take 32 (hash zid) ++ take 32 (challenge p)))
                (seq 0 SHA256_DIGEST_LENGTH) 1 (or_intror eq_refl)); auto.
Qed.

Lemma memcpy_zeroed (src : list byte) (n : nat) :
  (n <= 32)%nat -> (n <= length src)%nat ->
  memcpy (zeroed 32) src n = take n src ++ replicate (32 - n) x00.
Proof.
  intros _ _. unfold memcpy, zeroed. rewrite drop_replicate. reflexivity.
Qed.

(** X11.  A challenge shorter than 32 bytes is stored padded with zeros, while
    the digest covers the given bytes only; [verify_proof], which always
    hashes the 32 stored bytes, then accepts the proof exactly when the
    digests of the unpadded and of the padded message agree. *)
Theorem create_proof_pads_short_challenge
  (ctx : zero_context_t) (zid : zero_id_t) (chal : list byte)
  (challenge_len : nat) (now : Z) :
  (challenge_len <= 32)%nat ->
  (challenge_len <= length chal)%nat ->
  exists p,
    create_proof SHA256 ctx zid chal challenge_len now = Some p /\
    challenge p = take challenge_len chal ++ replicate (32 - challenge_len) x00 /\
    length (challenge p) = 32%nat /\
    proof p = SHA256 (take 32 (hash zid) ++ take challenge_len chal) /\
    timestamp p = now /\
    (verify_proof SHA256 ctx p zid = 1 <->
     forall i, (i < 32)%nat ->
       nth i (SHA256 (take 32 (hash zid) ++ take challenge_len chal)) x00
       = nth i (SHA256 (take 32 (hash zid) ++ take challenge_len chal
                        ++ replicate (32 - challenge_len) x00)) x00).
Proof.
  intros H32 Hlen. eexists. unfold create_proof.
  rewrite decide_True by (split; assumption).
  split; [reflexivity |]. cbn [challenge proof timestamp].
  rewrite (memcpy_zeroed chal challenge_len H32 Hlen).
  assert (Hpad : length (take challenge_len chal ++ replicate (32 - challenge_len) x00)
                 = 32%nat).
  { rewrite length_app, length_take, length_replicate. lia. }
  repeat (split; [reflexivity || exact Hpad |]).
  unfold verify_proof. cbn [challenge proof].
  rewrite (take_ge (take challenge_len chal ++ _)) by lia.
  apply compare_digests_one_iff.
Qed.

End ProofChecks.

Lemma create_proof_pads_short_challenge_witness :
  exists p,
    Zero.create_proof ZeroDemo.toy_digest ZeroDemo.ctx ZeroDemo.alice_zid
      ZeroDemo.challenge 8 0 = Some p /\
    length (Zero.challenge p) = 32%nat.
Proof.
  destruct (create_proof_pads_short_challenge ZeroDemo.toy_digest ZeroDemo.ctx
              ZeroDemo.alice_zid ZeroDemo.challenge 8 0)
    as (p & Hp & _ & Hlen & _).
  - lia.
  - vm_compute. lia.
  - exists p. split; assumption.
Defined.

Section IdentityStoreRoundTrip.

Import Zero Phantom.



End IdentityStoreRoundTrip.

Section PhantomRuns.

Import Zero Phantom.

Variable SHA256 : list byte -> list byte.
Variable HMAC : list byte -> list byte -> list byte.

Lemma c_string_shorter (s : list byte) : (length (c_string s) <= length s)%nat.
Proof.
  induction s as [|b s IH]; cbn [c_string]; [lia |].
  destruct (Byte.eqb b x00); cbn [length]; lia.
Qed.

Lemma take_strlen (s : list byte) : take (strlen s) s = c_string s.
Proof.
  unfold strlen. induction s as [|b s IH]; cbn [c_string]; [reflexivity |].
  destruct (Byte.eqb b x00); cbn [length take]; [reflexivity |].
  rewrite IH. reflexivity.
Qed.

Lemma generate_secure_salt_returns n (w : world) :
  (n <= length (entropy w))%nat ->
  generate_secure_salt n w
  = Returned (take n (entropy w))
      (mk_world (drop n (entropy w)) (time_at w) (time_calls w)).
Proof. intros H. unfold generate_secure_salt. rewrite decide_True by exact H. reflexivity. Qed.

Lemma generate_secure_salt_exits n (w : world) :
  (length (entropy w) < n)%nat -> generate_secure_salt n w = Exited 1.
Proof. intros H. unfold generate_secure_salt. rewrite decide_False by lia. reflexivity. Qed.

(** A proof made over a fresh 32-byte challenge is accepted, whatever the
    ZeroID holds. *)
Lemma create_proof_call_verifies ctx zid chal (w : world) :
  length chal = 32%nat ->
  exists p,
    create_proof_call SHA256 ctx zid chal 32 w
    = Returned p (mk_world (entropy w) (time_at w) (S (time_calls w))) /\
    verify_proof SHA256 ctx p zid = 1.
Proof.
  intros Hlen. unfold create_proof_call, mbind, run_bind, time_now, create_proof.
  rewrite decide_True by (rewrite Hlen; lia).
  eexists. split; [reflexivity |].
  unfold verify_proof. cbn [challenge proof].
  assert (Hcopy : memcpy (zeroed 32) chal 32 = chal).
  { unfold memcpy, zeroed. rewrite (take_ge chal) by lia.
    rewrite drop_ge by (rewrite length_replicate; lia). apply app_nil_r. }
  rewrite Hcopy. apply compare_digests_equal. reflexivity.
Qed.

(** X13.  [blueshare_authenticate] cannot refuse a device: with 32 bytes of
    entropy at hand it returns 1, whatever the device's identifiers hold,
    having used those 32 bytes and read the clock once; with fewer the
    process exits with status 1.  It never returns 0. *)
Theorem blueshare_authenticate_always_verifies
  (ctx : zero_context_t) (device : blueshare_device_t) (w : world) :
  blueshare_authenticate SHA256 ctx device w
  = if decide (32 <= length (entropy w))%nat
    then Returned 1 (mk_world (drop 32 (entropy w)) (time_at w) (S (time_calls w)))
    else Exited 1.
Proof.
  unfold blueshare_authenticate, create_challenge.
  unfold mbind at 1. unfold run_bind.
  case_decide as He.
  - rewrite (generate_secure_salt_returns 32 w He).
    unfold mbind, run_bind.
    destruct (create_proof_call_verifies ctx (auth_id device) (take 32 (entropy w))
                (mk_world (drop 32 (entropy w)) (time_at w) (time_calls w)))
      as (p & Hp & Hv).
    { rewrite length_take. lia. }
    rewrite Hp. unfold mret, run_ret. rewrite Hv. reflexivity.
  - rewrite (generate_secure_salt_exits 32 w) by lia. reflexivity.
Qed.

(** X14.  [blueshare_join_network] admits every device to every network: for
    any network name it returns 1 when 32 bytes of entropy are at hand
    (after two readings of the clock), and the process exits with status 1
    otherwise.  It never returns 0. *)
Theorem blueshare_join_network_always_admits
  (ctx : zero_context_t) (device : blueshare_device_t)
  (network_name : list byte) (w : world) :
  blueshare_join_network SHA256 HMAC ctx device network_name w
  = if decide (32 <= length (entropy w))%nat
    then Returned 1
           (mk_world (drop 32 (entropy w)) (time_at w) (S (S (time_calls w))))
    else Exited 1.
Proof.
  unfold blueshare_join_network, create_challenge, derive_zero_id.
  unfold mbind at 1 2. unfold run_bind at 1 2. unfold time_now at 1.
  unfold mret at 1. unfold run_ret at 1.
  unfold mbind at 1. unfold run_bind at 1.
  set (w1 := mk_world (entropy w) (time_at w) (S (time_calls w))).
  change (entropy w) with (entropy w1).
  case_decide as He.
  - rewrite (generate_secure_salt_returns 32 w1 He).
    unfold mbind, run_bind.
    match goal with
    | |- context [create_proof_call SHA256 ctx ?z ?c 32 ?w'] =>
        destruct (create_proof_call_verifies ctx z c w') as (p & Hp & Hv)
    end.
    { rewrite length_take. lia. }
    rewrite Hp. unfold mret, run_ret. rewrite Hv. reflexivity.
  - rewrite (generate_secure_salt_exits 32 w1) by lia. reflexivity.
Qed.

End PhantomRuns.

Section PhantomIdentities.

Import Zero Phantom.

Variable SHA256 : list byte -> list byte.
Variable HMAC : list byte -> list byte -> list byte.

Lemma create_zero_id_returns ctx (id : list byte) (id_len : nat) (w : world) :
  (32 <= length (entropy w))%nat ->
  (id_len <= length id)%nat ->
  create_zero_id SHA256 ctx id id_len w
  = Returned
      (mk_zero_id 1 (SHA256 (take id_len id ++ take 32 (entropy w)))
         (take 32 (entropy w)) (time_at w (time_calls w)))
      (mk_world (drop 32 (entropy w)) (time_at w) (S (time_calls w))).
Proof.
  intros He Hid. unfold create_zero_id, mbind, run_bind, time_now.
  rewrite generate_secure_salt_returns by exact He.
  rewrite decide_True by exact Hid. reflexivity.
Qed.

Lemma create_zero_id_exits ctx (id : list byte) (id_len : nat) (w : world) :
  (length (entropy w) < 32)%nat ->
  create_zero_id SHA256 ctx id id_len w = Exited 1.
Proof.
  intros He. unfold create_zero_id, mbind, run_bind, time_now.
  rewrite generate_secure_salt_exits by exact He. reflexivity.
Qed.

(** X15.  Two ZeroIDs created one after the other draw their salts from
    successive, disjoint stretches of the entropy: the first 32 bytes and
    the next 32.  Each is at version 1 and hashes the identifier followed
    by its own salt, so the two hashes are taken over messages that differ
    exactly where the salts do. *)
Theorem create_zero_id_twice ctx (id : list byte) (id_len : nat) (w : world) :
  (64 <= length (entropy w))%nat ->
  (id_len <= length id)%nat ->
  exists a b w',
    (a ← create_zero_id SHA256 ctx id id_len;
     b ← create_zero_id SHA256 ctx id id_len;
     mret (a, b)) w = Returned (a, b) w' /\
    version a = 1 /\ version b = 1 /\
    salt a = take 32 (entropy w) /\
    salt b = take 32 (drop 32 (entropy w)) /\
    hash a = SHA256 (take id_len id ++ salt a) /\
    hash b = SHA256 (take id_len id ++ salt b) /\
    entropy w' = drop 64 (entropy w) /\
    time_calls w' = S (S (time_calls w)).
Proof.
  intros He Hid. do 3 eexists.
  unfold mbind at 1. unfold run_bind at 1.
  rewrite create_zero_id_returns by (lia || exact Hid).
  unfold mbind at 1. unfold run_bind at 1.
  rewrite create_zero_id_returns
    by (cbn [entropy]; rewrite ?length_drop; lia || exact Hid).
  unfold mret, run_ret. cbn [entropy time_at time_calls].
  split; [reflexivity |]. cbn [version salt hash entropy time_calls].
  rewrite drop_drop. repeat split.
Qed.

Lemma derive_zero_id_returns ctx base purpose (w : world) :
  derive_zero_id HMAC ctx base purpose w
  = Returned
      (mk_zero_id (version base)
         (HMAC (take 32 (context_salt ctx)) (take 32 (hash base) ++ c_string purpose))
         (memcpy (zeroed 32) (salt base) 32) (time_at w (time_calls w)))
      (mk_world (entropy w) (time_at w) (S (time_calls w))).
Proof. reflexivity. Qed.

Lemma memcpy_whole (src : list byte) :
  length src = 32%nat -> memcpy (zeroed 32) src 32 = src.
Proof.
  intros H. unfold memcpy, zeroed. rewrite take_ge by lia.
  rewrite drop_ge by (rewrite length_replicate; lia). apply app_nil_r.
Qed.

(** X16.  [blueshare_init_device] on a name of fewer than 128 characters: with
    fewer than 32 bytes of entropy the process exits with status 1;
    otherwise it returns a device, having used exactly 32 bytes of entropy
    and read the clock five times.  The device identifier holds at most 63
    characters; the ZeroID is at version 1 and hashes the identifier
    followed by the fresh salt; the key is the HMAC of that hash under the
    master key and expires 2,592,000 seconds (30 days) after its issue;
    the authentication and network identifiers are the HMACs, under the
    context salt, of the ZeroID's hash followed by their purpose, and both
    carry the ZeroID's version and its very salt. *)
Theorem blueshare_init_device_outcome ctx (name : list byte) (w : world) :
  (strlen name < 128)%nat ->
  if decide (32 <= length (entropy w))%nat then
    exists dev,
      blueshare_init_device SHA256 HMAC ctx name w
      = Returned dev
          (mk_world (drop 32 (entropy w)) (time_at w) (5 + time_calls w)) /\
      device_name dev = c_string name /\
      (length (device_id dev) <= 63)%nat /\
      version (zid dev) = 1 /\
      salt (zid dev) = take 32 (entropy w) /\
      hash (zid dev) = SHA256 (c_string (device_id dev) ++ salt (zid dev)) /\
      key_hash (key dev)
      = HMAC (take 32 (master_key ctx)) (take 32 (hash (zid dev))) /\
      expiration (key dev) = key_timestamp (key dev) + 2592000 /\
      hash (auth_id dev)
      = HMAC (take 32 (context_salt ctx))
          (take 32 (hash (zid dev)) ++ literal "authentication") /\
      hash (network_id dev)
      = HMAC (take 32 (context_salt ctx))
          (take 32 (hash (zid dev)) ++ literal "network-joining") /\
      version (auth_id dev) = 1 /\ version (network_id dev) = 1 /\
      salt (auth_id dev) = salt (zid dev) /\
      salt (network_id dev) = salt (zid dev)
  else blueshare_init_device SHA256 HMAC ctx name w = Exited 1.
Proof.
  intros Hname.
  set (w1 := mk_world (entropy w) (time_at w) (S (time_calls w))).
  set (id := snprintf 64 (literal "blueshare-" ++ decimal (time_at w (time_calls w))
                          ++ literal "-" ++ c_string name)).
  assert (Hstart : blueshare_init_device SHA256 HMAC ctx name w
                   = (zid ← create_zero_id SHA256 ctx id (strlen id);
                      key ← create_zero_key HMAC ctx zid;
                      auth ← derive_zero_id HMAC ctx zid (literal "authentication");
                      net ← derive_zero_id HMAC ctx zid (literal "network-joining");
                      mret (mk_blueshare_device id (c_string name) zid key auth net)) w1).
  { unfold blueshare_init_device.
    rewrite (decide_False (P := (128 <= strlen name)%nat)) by lia. reflexivity. }
  rewrite Hstart. clear Hstart.
  case_decide as He.
  - unfold mbind at 1. unfold run_bind at 1.
    rewrite (create_zero_id_returns ctx id (strlen id) w1 He (c_string_shorter id)).
    eexists. split; [reflexivity |].
    cbn [device_name device_id zid key auth_id network_id version hash salt
           key_hash key_timestamp expiration entropy time_at time_calls w1].
    rewrite take_strlen.
    assert (Hsalt : length (take 32 (entropy w)) = 32%nat).
    { rewrite length_take. unfold w1 in He. cbn [entropy] in He. lia. }
    rewrite (memcpy_whole _ Hsalt).
    repeat split.
    subst id. unfold snprintf. rewrite length_take. lia.
  - unfold mbind at 1. unfold run_bind at 1.
    rewrite (create_zero_id_exits ctx id (strlen id) w1); [reflexivity |].
    unfold w1. cbn [entropy]. lia.
Qed.

End PhantomIdentities.

Lemma create_zero_id_twice_witness :
  exists a b w',
    (a ← Phantom.create_zero_id ZeroDemo.toy_digest ZeroDemo.ctx ZeroDemo.challenge 32;
     b ← Phantom.create_zero_id ZeroDemo.toy_digest ZeroDemo.ctx ZeroDemo.challenge 32;
     mret (a, b)) (Phantom.mk_world (replicate 64 "r"%byte) (fun _ => 0) 0)
    = Phantom.Returned (a, b) w' /\
    Zero.salt a = replicate 32 "r"%byte.
Proof.
  destruct (create_zero_id_twice ZeroDemo.toy_digest ZeroDemo.ctx ZeroDemo.challenge 32
              (Phantom.mk_world (replicate 64 "r"%byte) (fun _ => 0) 0))
    as (a & b & w' & Hrun & _ & _ & Ha & _).
  - vm_compute. lia.
  - vm_compute. lia.
  - exists a, b, w'. split; [exact Hrun | exact Ha].
Defined.

Lemma blueshare_init_device_outcome_witness :
  exists dev w',
    Phantom.blueshare_init_device ZeroDemo.toy_digest (fun k m => ZeroDemo.toy_digest (k ++ m))
      ZeroDemo.ctx (Phantom.literal "Alice-Phone")
      (Phantom.mk_world (replicate 32 "r"%byte) (fun _ => 1700000000) 0)
    = Phantom.Returned dev w' /\
    Zero.expiration (Phantom.key dev) = Zero.key_timestamp (Phantom.key dev) + 2592000.
Proof.
  pose proof (blueshare_init_device_outcome ZeroDemo.toy_digest
                (fun k m => ZeroDemo.toy_digest (k ++ m)) ZeroDemo.ctx
                (Phantom.literal "Alice-Phone")
                (Phantom.mk_world (replicate 32 "r"%byte) (fun _ => 1700000000) 0)) as H.
  rewrite decide_True in H by (vm_compute; lia).
  destruct H as (dev & Hrun & _ & _ & _ & _ & _ & _ & Hexp & _).
  - vm_compute. lia.
  - exists dev. eexists. split; [exact Hrun | exact Hexp].
Defined.

